(** * BigQuery reservation manager: a shallow embedding of [main.py]

    The cloud function of [main.py] decodes a JSON request and drives the
    BigQuery reservation service through its client: [report] lists the
    reservations, assignments and commitments of a scope, [cleanup] deletes
    them, [purchase] buys a commitment and wires a reservation and an
    assignment to it, undoing what it created when a later step fails.

    The embedding keeps the shape of the source.  Python values decoded from
    JSON are an inductive type, exceptions are values, and every function of
    [main.py] is a computation in a state-and-exception monad whose state
    holds the remote service, the journal of the calls made to it and the
    lines printed. *)

From Stdlib Require Import String Ascii ZArith List Bool Lia DecimalString.
Import ListNotations.
Open Scope string_scope.
Open Scope Z_scope.

Set Implicit Arguments.
Set Warnings "-register-all".

(** ** Python values *)

(** A float is kept as the number it denotes, [m * 2^e], or as one of the
    special values; [int()] on it is then exact. *)
Inductive pyfloat :=
| FFinite (m e : Z)
| FInf (negative : bool)
| FNan.

(** What [request.get_json] can return. *)
Inductive pyvalue :=
| PyNone
| PyBool (b : bool)
| PyInt (z : Z)
| PyFloat (f : pyfloat)
| PyStr (s : string)
| PyList (l : list pyvalue)
| PyDict (d : list (string * pyvalue)).

(** A dict is an association list; the first binding of a key is the one a
    lookup sees. *)
Definition pydict := list (string * pyvalue).

Fixpoint dict_get (k : string) (d : pydict) : option pyvalue :=
  match d with
  | [] => None
  | (k', v) :: d' => if String.eqb k k' then Some v else dict_get k d'
  end.

(** [k in d] *)
Definition dict_in (k : string) (d : pydict) : bool :=
  match dict_get k d with Some _ => true | None => false end.

(** [d.get(k, default)] *)
Definition dict_get_default (k : string) (default : pyvalue) (d : pydict) : pyvalue :=
  match dict_get k d with Some v => v | None => default end.

(** ['lit' == v] for a string literal on the left. *)
Definition str_eq (lit : string) (v : pyvalue) : bool :=
  match v with PyStr s => String.eqb lit s | _ => false end.

(** [needle in haystack] on two strings. *)
Fixpoint str_contains (needle haystack : string) : bool :=
  if String.prefix needle haystack then true
  else match haystack with
       | EmptyString => false
       | String _ rest => str_contains needle rest
       end.

(** ** Exceptions *)

(** An exception deriving from [Exception]: its class, its [message]
    attribute when it has one, and what [str()] gives. *)
Record exn := mkExn {
  exn_type : string;
  exn_message : option string;
  exn_str : string
}.

(** ** The interpreter

    Texts that depend on the Python version are taken from the runtime
    rather than guessed. *)
Record PyRuntime := {
  (** [str()] of a float, a list or a dict *)
  rt_repr : pyvalue -> string;
  (** text of the builtin error raised at [site] on [operand] *)
  rt_explain : string -> pyvalue -> string;
  (** [int()] of a [str] that has a character outside ASCII *)
  rt_int_foreign : string -> option Z;
  (** [sys.get_int_max_str_digits()]: [0] when there is no limit, and never
      below the threshold of 640 digits otherwise *)
  rt_max_str_digits : nat;
  rt_max_str_digits_valid :
    ((rt_max_str_digits =? 0) || (640 <=? rt_max_str_digits))%nat = true
}.

Definition string_of_Z (z : Z) : string := NilZero.string_of_int (Z.to_int z).

Section Interpreter.

Variable rt : PyRuntime.

(** [str(v)], as an f-string or [str.format] renders [v]. *)
Definition py_str (v : pyvalue) : string :=
  match v with
  | PyNone => "None"
  | PyBool true => "True"
  | PyBool false => "False"
  | PyInt z => string_of_Z z
  | PyStr s => s
  | PyFloat _ | PyList _ | PyDict _ => rt_repr rt v
  end.

Definition TypeError (site : string) (v : pyvalue) : exn :=
  mkExn "TypeError" None (rt_explain rt site v).
Definition ValueError (site : string) (v : pyvalue) : exn :=
  mkExn "ValueError" None (rt_explain rt site v).
Definition OverflowError (site : string) (v : pyvalue) : exn :=
  mkExn "OverflowError" None (rt_explain rt site v).

Definition KeyError (key : string) : exn :=
  mkExn "KeyError" None ("'" ++ key ++ "'").

(** Reading an attribute that an object of class [cls] does not have. *)
Definition AttributeError (cls attr : string) : exn :=
  mkExn "AttributeError" None
        ("'" ++ cls ++ "' object has no attribute '" ++ attr ++ "'").

Definition type_name (v : pyvalue) : string :=
  match v with
  | PyNone => "NoneType"
  | PyBool _ => "bool"
  | PyInt _ => "int"
  | PyFloat _ => "float"
  | PyStr _ => "str"
  | PyList _ => "list"
  | PyDict _ => "dict"
  end.

(** [key in v] for a string literal [key] *)
Definition py_contains (key : string) (v : pyvalue) : exn + bool :=
  match v with
  | PyDict d => inr (dict_in key d)
  | PyList l => inr (existsb (str_eq key) l)
  | PyStr s => inr (str_contains key s)
  | PyNone | PyBool _ | PyInt _ | PyFloat _ => inl (TypeError "in: not iterable" v)
  end.

(** [v[key]] for a string literal [key] *)
Definition py_getitem (v : pyvalue) (key : string) : exn + pyvalue :=
  match v with
  | PyDict d =>
      match dict_get key d with
      | Some x => inr x
      | None => inl (KeyError key)
      end
  | PyList _ | PyStr _ => inl (TypeError "getitem: index is a str" v)
  | PyNone | PyBool _ | PyInt _ | PyFloat _ =>
      inl (TypeError "getitem: not subscriptable" v)
  end.

(** [v.get(key, default)] *)
Definition py_get (v : pyvalue) (key : string) (default : pyvalue) : exn + pyvalue :=
  match v with
  | PyDict d => inr (dict_get_default key default d)
  | _ => inl (AttributeError (type_name v) "get")
  end.

(** *** [int()] *)

(** The characters [int()] strips around the literal of an ASCII [str]:
    tab, line feed, vertical tab, form feed, carriage return and space. *)
Definition is_space (c : ascii) : bool :=
  let n := nat_of_ascii c in
  (((9 <=? n) && (n <=? 13)) || (n =? 32))%nat.

Definition digit_of (c : ascii) : option Z :=
  let n := nat_of_ascii c in
  if ((48 <=? n) && (n <=? 57))%nat then Some (Z.of_nat (n - 48)) else None.

Fixpoint lstrip (s : string) : string :=
  match s with
  | String c s' => if is_space c then lstrip s' else s
  | EmptyString => EmptyString
  end.

Fixpoint rstrip (s : string) : string :=
  match s with
  | EmptyString => EmptyString
  | String c s' =>
      match rstrip s' with
      | EmptyString => if is_space c then EmptyString else String c EmptyString
      | t => String c t
      end
  end.

(** Digits, with single underscores between them; [after_digit] tells whether
    the previous character was a digit.  Returns the value and how many
    digits were read. *)
Fixpoint int_digits (acc : Z) (count : nat) (after_digit : bool) (s : string)
  : option (Z * nat) :=
  match s with
  | EmptyString => if after_digit then Some (acc, count) else None
  | String c s' =>
      match digit_of c with
      | Some d => int_digits (10 * acc + d) (S count) true s'
      | None =>
          if Ascii.eqb c "_" && after_digit then int_digits acc count false s'
          else None
      end
  end.

Definition int_literal (s : string) : option (Z * nat) :=
  match lstrip (rstrip s) with
  | String "-" body =>
      match int_digits 0 0 false body with
      | Some (z, n) => Some (- z, n)
      | None => None
      end
  | String "+" body => int_digits 0 0 false body
  | body => int_digits 0 0 false body
  end.

Fixpoint is_ascii (s : string) : bool :=
  match s with
  | EmptyString => true
  | String c s' => (nat_of_ascii c <? 128)%nat && is_ascii s'
  end.

Definition int_of_str (s : string) : exn + Z :=
  if is_ascii s then
    match int_literal s with
    | Some (z, n) =>
        let limit := rt_max_str_digits rt in
        if (negb (limit =? 0) && (limit <? n))%nat
        then inl (ValueError "int: too many digits" (PyStr s))
        else inr z
    | None => inl (ValueError "int: invalid literal" (PyStr s))
    end
  else
    match rt_int_foreign rt s with
    | Some z => inr z
    | None => inl (ValueError "int: invalid literal" (PyStr s))
    end.

(** Truncation toward zero of [m * 2^e]. *)
Definition float_trunc (m e : Z) : Z :=
  if 0 <=? e then m * 2 ^ e else Z.quot m (2 ^ (- e)).

(** [int(v)] *)
Definition py_int (v : pyvalue) : exn + Z :=
  match v with
  | PyInt z => inr z
  | PyBool b => inr (if b then 1 else 0)
  | PyFloat (FFinite m e) => inr (float_trunc m e)
  | PyFloat (FInf _) => inl (OverflowError "int: infinity" v)
  | PyFloat FNan => inl (ValueError "int: NaN" v)
  | PyStr s => int_of_str s
  | PyNone | PyList _ | PyDict _ => inl (TypeError "int: argument" v)
  end.

(** *** Integer fields of a message *)

Definition in_int64 (z : Z) : bool := (- 2 ^ 63 <=? z) && (z <? 2 ^ 63).

(** Giving [z] to an [int64] field while a message is built: a value out of
    range is refused with a [ValueError]. *)
Definition int64_field (z : Z) : exn + Z :=
  if in_int64 z then inr z
  else inl (ValueError "int64 field: value out of range" (PyInt z)).

End Interpreter.

(** ** Clock and random source *)

Record datetime := {
  year : nat; month : nat; day : nat;
  hour : nat; minute : nat; second : nat
}.

Definition dec (n : nat) : string := NilZero.string_of_uint (Nat.to_uint n).

Definition pad2 (n : nat) : string :=
  if (n <? 10)%nat then "0" ++ dec n else dec n.

(** [d.strftime(fmt)] for the directives [%Y %m %d %H %M %S]; every other
    character is copied. *)
Fixpoint strftime (fmt : string) (d : datetime) : string :=
  match fmt with
  | String "%" (String c rest) =>
      let field :=
        if Ascii.eqb c "Y" then dec (year d)
        else if Ascii.eqb c "m" then pad2 (month d)
        else if Ascii.eqb c "d" then pad2 (day d)
        else if Ascii.eqb c "H" then pad2 (hour d)
        else if Ascii.eqb c "M" then pad2 (minute d)
        else if Ascii.eqb c "S" then pad2 (second d)
        else String "%" (String c EmptyString) in
      field ++ strftime rest d
  | String c rest => String c (strftime rest d)
  | EmptyString => EmptyString
  end.

(** The state of [random]: the draws still to come and how many were used. *)
Record Rng := { rng_draws : nat -> nat; rng_pos : nat }.

(** [random.choice(seq)] on a string *)
Definition random_choice (seq : string) (g : Rng) : ascii * Rng :=
  let i := (rng_draws g (rng_pos g) mod String.length seq)%nat in
  (match String.get i seq with Some c => c | None => " "%char end,
   {| rng_draws := rng_draws g; rng_pos := S (rng_pos g) |}).

Definition ascii_lowercase : string := "abcdefghijklmnopqrstuvwxyz".

(** ** The reservation service *)

Module CapacityCommitment.
Record t := { name : string; plan : string; slot_count : Z }.
End CapacityCommitment.

Module Reservation.
Record t := { name : string; slot_capacity : Z; ignore_idle_slots : bool }.
End Reservation.

Module Assignment.
Record t := { name : string; job_type : string; assignee : string }.
End Assignment.

(** [google.api_core.retry.Retry], by the arguments the program gives it. *)
Record Retry := {
  deadline : Z;
  predicate : exn -> bool;
  maximum : Z
}.

(** The class [Exception] used as a predicate: called on an exception it
    builds an exception object, which is truthy. *)
Definition Exception : exn -> bool := fun _ => true.

(** The request messages. *)
Inductive request :=
| ListCapacityCommitmentsRequest (parent : string)
| ListReservationsRequest (parent : string)
| ListAssignmentsRequest (parent : string)
| CreateCapacityCommitmentRequest (parent : string)
    (capacity_commitment : CapacityCommitment.t)
| CreateReservationRequest (parent reservation_id : string)
    (reservation : Reservation.t)
| CreateAssignmentRequest (parent : string) (assignment : Assignment.t)
| DeleteAssignmentRequest (name : string)
| DeleteCapacityCommitmentRequest (name : string)
| DeleteReservationRequest (name : string).

(** The client, over a remote service in state [R].  A method takes the
    fields of its request and the [retry] argument ([None] when the caller
    passes none), and returns what it yields or the exception it raises,
    with the service's next state.  A listing stands for the whole iteration
    over the pager. *)
Module Client.
Record t (R : Type) := {
  list_capacity_commitments :
    string -> option Retry -> R -> (exn + list CapacityCommitment.t) * R;
  list_reservations :
    string -> option Retry -> R -> (exn + list Reservation.t) * R;
  list_assignments :
    string -> option Retry -> R -> (exn + list Assignment.t) * R;
  create_capacity_commitment :
    string -> CapacityCommitment.t -> option Retry -> R ->
    (exn + CapacityCommitment.t) * R;
  create_reservation :
    string -> string -> Reservation.t -> option Retry -> R ->
    (exn + Reservation.t) * R;
  create_assignment :
    string -> Assignment.t -> option Retry -> R -> (exn + Assignment.t) * R;
  delete_assignment : string -> option Retry -> R -> (exn + unit) * R;
  delete_reservation : string -> option Retry -> R -> (exn + unit) * R;
  delete_capacity_commitment : string -> option Retry -> R -> (exn + unit) * R
}.
End Client.

Definition ReservationServiceClient := Client.t.

(** ** The journal of remote calls *)

Inductive outcome :=
| Raised (e : exn)
| Returned (names : list string).

Record event := Event {
  ev_request : request;
  ev_retry : option Retry;
  ev_outcome : outcome
}.

(** ** Computations *)

(** [l.append(x)] *)
Definition append {A} (l : list A) (x : A) : list A := (l ++ [x])%list.

Record World (R : Type) := {
  remote : R;
  journal : list event;
  stdout : list string
}.

Definition M (R A : Type) : Type := World R -> (exn + A) * World R.

Section Monad.

Context {R : Type}.

Definition ret {A} (a : A) : M R A := fun w => (inr a, w).

Definition bind {A B} (m : M R A) (k : A -> M R B) : M R B :=
  fun w =>
    match m w with
    | (inr a, w') => k a w'
    | (inl e, w') => (inl e, w')
    end.

Definition raise {A} (e : exn) : M R A := fun w => (inl e, w).

(** [try: body / except Exception as e: handler e] *)
Definition try_except {A} (body : M R A) (handler : exn -> M R A) : M R A :=
  fun w =>
    match body w with
    | (inr a, w') => (inr a, w')
    | (inl e, w') => handler e w'
    end.

(** The value or the exception of a pure evaluation. *)
Definition lift {A} (r : exn + A) : M R A :=
  match r with inr a => ret a | inl e => raise e end.

Definition print (line : string) : M R unit :=
  fun w => (inr tt, {| remote := remote w; journal := journal w;
                       stdout := append (stdout w) line |}).

(** One call of a client method: run it on the service and enter it in the
    journal with the names of the resources it returned. *)
Definition call {A} (req : request) (retry : option Retry)
    (names : A -> list string) (method : R -> (exn + A) * R) : M R A :=
  fun w =>
    let (res, r') := method (remote w) in
    let out := match res with
               | inl e => Raised e
               | inr a => Returned (names a)
               end in
    (res, {| remote := r'; journal := append (journal w) (Event req retry out);
             stdout := stdout w |}).

End Monad.

Declare Scope monad_scope.
Delimit Scope monad_scope with M.
Notation "x <- m ;; k" := (bind m (fun x => k))
  (at level 61, m at next level, right associativity) : monad_scope.
Notation "m ;; k" := (bind m (fun _ => k))
  (at level 61, right associativity) : monad_scope.
Open Scope monad_scope.

(** [for x in xs: body], the loop threading what its body updates. *)
Fixpoint for_each {R A S} (xs : list A) (body : A -> S -> M R S) (acc : S)
  : M R S :=
  match xs with
  | [] => ret acc
  | x :: xs' => acc' <- body x acc ;; for_each xs' body acc'
  end.

(** ** Responses *)

Record Response := { body : pyvalue; status : Z }.

Definition jsonify (d : pydict) : pyvalue := PyDict d.

Definition make_response (json : pyvalue) (code : Z) : Response :=
  {| body := json; status := code |}.

(** The request, by what [get_json(force=True, silent=True)] makes of its
    body: [None] when the body is not JSON. *)
Record Request := { json : option pyvalue }.

Definition get_json (request : Request) : pyvalue :=
  match json request with Some v => v | None => PyNone end.

(** ** Reservation names *)

(** [''.join(random.choice(string.ascii_lowercase) for i in range(length))] *)
Fixpoint get_random_string (length : nat) (g : Rng) : string * Rng :=
  match length with
  | O => (EmptyString, g)
  | S n =>
      let (c, g1) := random_choice ascii_lowercase g in
      let (rest, g2) := get_random_string n g1 in
      (String c rest, g2)
  end.

(** [today] is what [datetime.today()] returns. *)
Definition get_reservation_name (today : datetime) (g : Rng) : string * Rng :=
  let (suffix, g') := get_random_string 8 g in
  (strftime "reservation-%Y%m%d-%H%M%S%M" today ++ "-" ++ suffix, g').

(** ** The functions of [main.py] *)

Section Main.

Variable rt : PyRuntime.
Variable R : Type.

(** What [ReservationServiceClient()] builds. *)
Variable new_client : ReservationServiceClient R.

(** The default of the parameter [reservation_name] of
    [create_reservation_and_assignment], bound when the [def] statement is
    executed. *)
Variable reservation_name_default : string.

Definition handle_exception (e : exn) : Response :=
  match exn_message e with
  | Some message =>
      make_response
        (jsonify [("message", PyStr message); ("severity", PyStr "error")]) 500
  | None =>
      make_response
        (jsonify [("message", PyStr (exn_str e)); ("severity", PyStr "error")]) 500
  end.

(** [client.common_location_path(project, location)] *)
Definition common_location_path (project location : pyvalue) : string :=
  "projects/" ++ py_str rt project ++ "/locations/" ++ py_str rt location.

Definition get_commitments (client : ReservationServiceClient R)
    (project_id location : pyvalue) : M R (list CapacityCommitment.t) :=
  let parent := common_location_path project_id location in
  call (ListCapacityCommitmentsRequest parent) None
       (map CapacityCommitment.name)
       (Client.list_capacity_commitments client parent None).

Definition get_reservations (client : ReservationServiceClient R)
    (project_id location : pyvalue) : M R (list Reservation.t) :=
  let parent := common_location_path project_id location in
  call (ListReservationsRequest parent) None
       (map Reservation.name)
       (Client.list_reservations client parent None).

Definition get_assignments (client : ReservationServiceClient R)
    (parent : string) : M R (list Assignment.t) :=
  call (ListAssignmentsRequest parent) None
       (map Assignment.name)
       (Client.list_assignments client parent None).

Definition delete_assignment (client : ReservationServiceClient R)
    (assignment_name : string) : M R string :=
  print ("Deleting assignment " ++ assignment_name) ;;
  call (DeleteAssignmentRequest assignment_name) None (fun _ => [])
       (Client.delete_assignment client assignment_name None) ;;
  ret ("Deleted assignment " ++ assignment_name).

Definition delete_reservation (client : ReservationServiceClient R)
    (reservation_name : string) : M R string :=
  print ("Deleting reservation " ++ reservation_name) ;;
  call (DeleteReservationRequest reservation_name) None (fun _ => [])
       (Client.delete_reservation client reservation_name None) ;;
  ret ("Deleted reservation " ++ reservation_name).

Definition commitment_retry : Retry :=
  {| deadline := 90; predicate := Exception; maximum := 2 |}.

Definition delete_commitment (client : ReservationServiceClient R)
    (commitment_name : string) : M R string :=
  print ("Deleting commitment " ++ commitment_name) ;;
  call (DeleteCapacityCommitmentRequest commitment_name)
       (Some commitment_retry) (fun _ => [])
       (Client.delete_capacity_commitment client commitment_name
          (Some commitment_retry)) ;;
  ret ("Deleted commitment " ++ commitment_name).

Definition report (client : ReservationServiceClient R)
    (project_id location : pyvalue) : M R (list string) :=
  let log : list string := [] in
  reservations <- get_reservations client project_id location ;;
  log <- for_each reservations (fun reservation log =>
           let log := append log ("Reservation " ++ Reservation.name reservation) in
           assignments <- get_assignments client (Reservation.name reservation) ;;
           for_each assignments (fun assignment log =>
             ret (append log ("Assignment " ++ Assignment.name assignment))) log)
         log ;;
  commitments <- get_commitments client project_id location ;;
  log <- for_each commitments (fun commitment log =>
           ret (append log ("Commitment " ++ CapacityCommitment.name commitment)))
         log ;;
  ret log.

Definition cleanup (client : ReservationServiceClient R)
    (project_id location : pyvalue) : M R (list string) :=
  let log : list string := [] in
  reservations <- get_reservations client project_id location ;;
  log <- for_each reservations (fun reservation log =>
           assignments <- get_assignments client (Reservation.name reservation) ;;
           log <- for_each assignments (fun assignment log =>
                    line <- delete_assignment client (Assignment.name assignment) ;;
                    ret (append log line)) log ;;
           line <- delete_reservation client (Reservation.name reservation) ;;
           ret (append log line))
         log ;;
  commitments <- get_commitments client project_id location ;;
  log <- for_each commitments (fun commitment log =>
           line <- delete_commitment client (CapacityCommitment.name commitment) ;;
           ret (append log line))
         log ;;
  ret log.

Definition purchase_commitment (client : ReservationServiceClient R)
    (project_id location : pyvalue) (slots : Z) (plan : string)
  : M R CapacityCommitment.t :=
  print ("Purchasing commitment for " ++ string_of_Z slots ++ " " ++ plan
         ++ " slots in project " ++ py_str rt project_id ++ " in "
         ++ py_str rt location) ;;
  slot_count <- lift (int64_field rt slots) ;;
  let capacity_commitment :=
    {| CapacityCommitment.name := EmptyString; CapacityCommitment.plan := plan;
       CapacityCommitment.slot_count := slot_count |} in
  let parent := common_location_path project_id location in
  commitment <- call (CreateCapacityCommitmentRequest parent capacity_commitment)
                  None (fun c => [CapacityCommitment.name c])
                  (Client.create_capacity_commitment client parent
                     capacity_commitment None) ;;
  ret commitment.

Definition create_assignment (client : ReservationServiceClient R)
    (project_id : pyvalue) (reservation_name : string) : M R Assignment.t :=
  print ("Creating assignment for " ++ reservation_name ++ " in project "
         ++ py_str rt project_id) ;;
  let assignment_config :=
    {| Assignment.name := EmptyString; Assignment.job_type := "QUERY";
       Assignment.assignee := "projects/" ++ py_str rt project_id |} in
  assignment <- call (CreateAssignmentRequest reservation_name assignment_config)
                  None (fun a => [Assignment.name a])
                  (Client.create_assignment client reservation_name
                     assignment_config None) ;;
  ret assignment.

(** [e.message] *)
Definition get_message (e : exn) : M R string :=
  match exn_message e with
  | Some message => ret message
  | None => raise (AttributeError (exn_type e) "message")
  end.

Definition create_reservation_and_assignment
    (client : ReservationServiceClient R) (project_id location : pyvalue)
    (slots : Z) (reservation_name : string)
  : M R (Reservation.t * Assignment.t) :=
  print ("Creating reservation " ++ reservation_name ++ " for "
         ++ string_of_Z slots ++ " slots in project " ++ py_str rt project_id
         ++ " in " ++ py_str rt location) ;;
  slot_capacity <- lift (int64_field rt slots) ;;
  let reservation_config :=
    {| Reservation.name := EmptyString; Reservation.slot_capacity := slot_capacity;
       Reservation.ignore_idle_slots := false |} in
  let parent := common_location_path project_id location in
  reservation <- call (CreateReservationRequest parent reservation_name
                         reservation_config)
                   None (fun r => [Reservation.name r])
                   (Client.create_reservation client parent reservation_name
                      reservation_config None) ;;
  try_except
    (assignment <- create_assignment client project_id
                     (Reservation.name reservation) ;;
     ret (reservation, assignment))
    (fun e =>
       message <- get_message e ;;
       print ("ERROR: " ++ message) ;;
       print "Error while creating assignment, rolling back reservation creation" ;;
       delete_reservation client (Reservation.name reservation) ;;
       raise e).

Definition report_http (request : Request) (client : ReservationServiceClient R)
    (project_id location : pyvalue) : M R Response :=
  log <- report client project_id location ;;
  let message := "Successfully ran report in " ++ py_str rt location
                 ++ " for project " ++ py_str rt project_id in
  print message ;;
  ret (make_response
         (jsonify [("message", PyStr message);
                   ("log", PyList (map PyStr log));
                   ("severity", PyStr "info")])
         200).

Definition cleanup_http (request : Request) (client : ReservationServiceClient R)
    (project_id location : pyvalue) : M R Response :=
  log <- cleanup client project_id location ;;
  let message := "Successfully ran cleanup in project " ++ py_str rt project_id
                 ++ " located in " ++ py_str rt location in
  print message ;;
  ret (make_response
         (jsonify [("message", PyStr message);
                   ("log", PyList (map PyStr log));
                   ("severity", PyStr "info")])
         200).

Definition purchase_http (request : Request) (client : ReservationServiceClient R)
    (project_id location : pyvalue) (slots : Z) : M R Response :=
  commitment <- purchase_commitment client project_id location slots "FLEX" ;;
  let message := "Successfully purchased commitment for " ++ string_of_Z slots
                 ++ " slots in project " ++ py_str rt project_id
                 ++ " located in " ++ py_str rt location in
  print message ;;
  try_except
    (ra <- create_reservation_and_assignment client project_id location slots
             reservation_name_default ;;
     ret (make_response
            (jsonify [("message", PyStr message);
                      ("commitment", PyStr (CapacityCommitment.name commitment));
                      ("reservation", PyStr (Reservation.name (fst ra)));
                      ("assignment", PyStr (Assignment.name (snd ra)));
                      ("severity", PyStr "info")])
            200))
    (fun e =>
       print "Error while creating reservation and assignment, rolling back commitment creation" ;;
       delete_commitment client (CapacityCommitment.name commitment) ;;
       raise e).

Definition main_http (request : Request) : M R Response :=
  let data := get_json request in
  match data with
  | PyNone =>
      print "Error: json request is required" ;;
      ret (make_response
             (jsonify [("message", PyStr "json request is required");
                       ("severity", PyStr "error")])
             400)
  | _ =>
      has_project <- lift (py_contains rt "project_id" data) ;;
      if negb has_project then
        print "Error: project_id is required in the json request" ;;
        ret (make_response
               (jsonify [("message",
                          PyStr "project_id is required in the json request");
                         ("severity", PyStr "error")])
               400)
      else
        project_id <- lift (py_getitem rt data "project_id") ;;
        location <- lift (py_get data "location" (PyStr "EU")) ;;
        slots <- lift (py_get data "slots" (PyInt 100)) ;;
        let client := new_client in
        has_operation <- lift (py_contains rt "operation" data) ;;
        if negb has_operation then
          ret (make_response
                 (jsonify [("message",
                            PyStr "Available operations are 'report', 'cleanup' and 'purchase'");
                           ("severity", PyStr "info")])
                 200)
        else
          operation <- lift (py_getitem rt data "operation") ;;
          if str_eq "report" operation then
            report_http request client project_id location
          else if str_eq "cleanup" operation then
            cleanup_http request client project_id location
          else if str_eq "purchase" operation then
            n <- lift (py_int rt slots) ;;
            purchase_http request client project_id location n
          else
            ret (make_response
                   (jsonify [("message",
                              PyStr ("Unsupported operation '"
                                     ++ py_str rt operation ++ "'"));
                             ("severity", PyStr "info")])
                   400)
  end.

(** The functions framework: call the handler and turn an exception it lets
    through into the response of [handle_exception]. *)
Definition serve (request : Request) (w : World R) : Response * World R :=
  match main_http request w with
  | (inr response, w') => (response, w')
  | (inl e, w') => (handle_exception e, w')
  end.

End Main.

(** ** An in-memory reservation service

    A service that keeps its resources in lists, refuses what the real one
    refuses (a missing target, a reservation that still has assignments, a
    reservation name already taken) and can be told to fail given methods.
    The functions above are run against it on concrete inputs. *)

Module Fake.

Record state := {
  commitments : list CapacityCommitment.t;
  reservations : list Reservation.t;
  (** an assignment with the name of the reservation that owns it *)
  assignments : list (string * Assignment.t);
  (** source of the names the service gives *)
  counter : nat;
  (** methods that raise, with what they raise *)
  faults : list (string * exn)
}.

Definition empty : state :=
  {| commitments := []; reservations := []; assignments := [];
     counter := 0; faults := [] |}.

Definition NotFound (name : string) : exn :=
  mkExn "NotFound" (Some ("not found: " ++ name)) ("404 not found: " ++ name).
Definition AlreadyExists (name : string) : exn :=
  mkExn "AlreadyExists" (Some ("already exists: " ++ name))
        ("409 already exists: " ++ name).
Definition FailedPrecondition (name : string) : exn :=
  mkExn "FailedPrecondition" (Some ("still in use: " ++ name))
        ("400 still in use: " ++ name).

Fixpoint fault (method : string) (fs : list (string * exn)) : option exn :=
  match fs with
  | [] => None
  | (m, e) :: fs' => if String.eqb method m then Some e else fault method fs'
  end.

(** Run [op] unless [method] is set to fail. *)
Definition guarded {A} (method : string)
    (op : state -> (exn + A) * state) (s : state) : (exn + A) * state :=
  match fault method (faults s) with
  | Some e => (inl e, s)
  | None => op s
  end.

Definition under (parent name : string) : bool :=
  String.prefix (parent ++ "/") name.

Definition client : ReservationServiceClient state :=
  {| Client.list_capacity_commitments := fun parent _ =>
       guarded "list_capacity_commitments" (fun s =>
         (inr (filter (fun c => under parent (CapacityCommitment.name c))
                      (commitments s)), s));
     Client.list_reservations := fun parent _ =>
       guarded "list_reservations" (fun s =>
         (inr (filter (fun r => under parent (Reservation.name r))
                      (reservations s)), s));
     Client.list_assignments := fun parent _ =>
       guarded "list_assignments" (fun s =>
         (inr (map snd (filter (fun pa => String.eqb parent (fst pa))
                               (assignments s))), s));
     Client.create_capacity_commitment := fun parent cc _ =>
       guarded "create_capacity_commitment" (fun s =>
         let c := {| CapacityCommitment.name :=
                       parent ++ "/capacityCommitments/" ++ dec (counter s);
                     CapacityCommitment.plan := CapacityCommitment.plan cc;
                     CapacityCommitment.slot_count :=
                       CapacityCommitment.slot_count cc |} in
         (inr c, {| commitments := append (commitments s) c;
                    reservations := reservations s;
                    assignments := assignments s;
                    counter := S (counter s);
                    faults := faults s |}));
     Client.create_reservation := fun parent reservation_id res _ =>
       guarded "create_reservation" (fun s =>
         let name := parent ++ "/reservations/" ++ reservation_id in
         if existsb (fun r => String.eqb name (Reservation.name r))
                    (reservations s)
         then (inl (AlreadyExists name), s)
         else
           let r := {| Reservation.name := name;
                       Reservation.slot_capacity :=
                         Reservation.slot_capacity res;
                       Reservation.ignore_idle_slots :=
                         Reservation.ignore_idle_slots res |} in
           (inr r, {| commitments := commitments s;
                      reservations := append (reservations s) r;
                      assignments := assignments s;
                      counter := counter s;
                      faults := faults s |}));
     Client.create_assignment := fun parent asg _ =>
       guarded "create_assignment" (fun s =>
         if existsb (fun r => String.eqb parent (Reservation.name r))
                    (reservations s)
         then
           let a := {| Assignment.name :=
                         parent ++ "/assignments/" ++ dec (counter s);
                       Assignment.job_type := Assignment.job_type asg;
                       Assignment.assignee := Assignment.assignee asg |} in
           (inr a, {| commitments := commitments s;
                      reservations := reservations s;
                      assignments := append (assignments s) (parent, a);
                      counter := S (counter s);
                      faults := faults s |})
         else (inl (NotFound parent), s));
     Client.delete_assignment := fun name _ =>
       guarded "delete_assignment" (fun s =>
         if existsb (fun pa => String.eqb name (Assignment.name (snd pa)))
                    (assignments s)
         then (inr tt,
               {| commitments := commitments s;
                  reservations := reservations s;
                  assignments :=
                    filter (fun pa =>
                              negb (String.eqb name (Assignment.name (snd pa))))
                           (assignments s);
                  counter := counter s;
                  faults := faults s |})
         else (inl (NotFound name), s));
     Client.delete_reservation := fun name _ =>
       guarded "delete_reservation" (fun s =>
         if existsb (fun r => String.eqb name (Reservation.name r))
                    (reservations s)
         then
           if existsb (fun pa => String.eqb name (fst pa)) (assignments s)
           then (inl (FailedPrecondition name), s)
           else (inr tt,
                 {| commitments := commitments s;
                    reservations :=
                      filter (fun r =>
                                negb (String.eqb name (Reservation.name r)))
                             (reservations s);
                    assignments := assignments s;
                    counter := counter s;
                    faults := faults s |})
         else (inl (NotFound name), s));
     Client.delete_capacity_commitment := fun name _ =>
       guarded "delete_capacity_commitment" (fun s =>
         if existsb (fun c => String.eqb name (CapacityCommitment.name c))
                    (commitments s)
         then (inr tt,
               {| commitments :=
                    filter (fun c =>
                              negb (String.eqb name (CapacityCommitment.name c)))
                           (commitments s);
                  reservations := reservations s;
                  assignments := assignments s;
                  counter := counter s;
                  faults := faults s |})
         else (inl (NotFound name), s)) |}.

(** An interpreter for the runs. *)
Definition runtime : PyRuntime :=
  {| rt_repr := fun _ => "<object>";
     rt_explain := fun site _ => site;
     rt_int_foreign := fun _ => None;
     rt_max_str_digits := 4300;
     rt_max_str_digits_valid := eq_refl |}.

Definition world (s : state) : World state :=
  {| remote := s; journal := []; stdout := [] |}.

Definition today : datetime :=
  {| year := 2021; month := 3; day := 7; hour := 9; minute := 5; second := 42 |}.

Definition rng : Rng := {| rng_draws := fun i => (7 * i + 3)%nat; rng_pos := 0 |}.

Definition unavailable : exn :=
  mkExn "ServiceUnavailable" (Some "backend unavailable")
        "503 backend unavailable".

Definition deadline_exceeded : exn :=
  mkExn "DeadlineExceeded" (Some "deadline exceeded") "504 deadline exceeded".

(** An exception without a [message] attribute. *)
Definition refresh_error : exn :=
  mkExn "RefreshError" None "token refresh failed".

(** [s] with the methods of [fs] set to fail. *)
Definition failing (fs : list (string * exn)) (s : state) : state :=
  {| commitments := commitments s; reservations := reservations s;
     assignments := assignments s; counter := counter s; faults := fs |}.

Definition scope : string := "projects/p1/locations/EU".

(** A scope with one reservation that has one assignment, and two
    commitments. *)
Definition populated : state :=
  {| commitments :=
       [ {| CapacityCommitment.name := scope ++ "/capacityCommitments/c1";
            CapacityCommitment.plan := "FLEX";
            CapacityCommitment.slot_count := 100 |};
         {| CapacityCommitment.name := scope ++ "/capacityCommitments/c2";
            CapacityCommitment.plan := "FLEX";
            CapacityCommitment.slot_count := 50 |} ];
     reservations :=
       [ {| Reservation.name := scope ++ "/reservations/r1";
            Reservation.slot_capacity := 100;
            Reservation.ignore_idle_slots := false |} ];
     assignments :=
       [ (scope ++ "/reservations/r1",
          {| Assignment.name := scope ++ "/reservations/r1/assignments/a1";
             Assignment.job_type := "QUERY";
             Assignment.assignee := "projects/p1" |}) ];
     counter := 0;
     faults := [] |}.

Definition purchase_request (slots : pyvalue) : Request :=
  {| json := Some (PyDict [("project_id", PyStr "p1");
                           ("operation", PyStr "purchase");
                           ("slots", slots)]) |}.

End Fake.

(** * Vocabulary of the properties *)

(** ** Requests and responses *)

(** The [severity] entry of a response. *)
Definition severity (r : Response) : option pyvalue :=
  match body r with
  | PyDict d => dict_get "severity" d
  | _ => None
  end.

(** The request whose body decodes to the object [d]. *)
Definition json_request (d : pydict) : Request := {| json := Some (PyDict d) |}.

Definition project_id_required : Response :=
  make_response
    (jsonify [("message", PyStr "project_id is required in the json request");
              ("severity", PyStr "error")])
    400.

Definition operations_available : Response :=
  make_response
    (jsonify [("message",
               PyStr "Available operations are 'report', 'cleanup' and 'purchase'");
              ("severity", PyStr "info")])
    200.

Definition unsupported_operation (rt : PyRuntime) (operation : pyvalue) : Response :=
  make_response
    (jsonify [("message",
               PyStr ("Unsupported operation '" ++ py_str rt operation ++ "'"));
              ("severity", PyStr "info")])
    400.

(** Two objects that agree on every key but [slots]. *)
Definition differ_only_in_slots (d1 d2 : pydict) : Prop :=
  forall k, k <> "slots" -> dict_get k d1 = dict_get k d2.

(** ** Journals *)

(** [emits P m]: whatever the world, [m] only adds events to the journal,
    and every event it adds satisfies [P]. *)
Definition emits {R A} (P : event -> Prop) (m : M R A) : Prop :=
  forall w, exists evs,
    journal (snd (m w)) = (journal w ++ evs)%list /\ Forall P evs.


(** A run that raised [e] stopped at a call that raised [e]. *)
Definition stopped_at (e : exn) (before after : list event) : Prop :=
  exists evs rq retry,
    after = (before ++ evs ++ [Event rq retry (Raised e)])%list.

(** ** Kinds of calls *)

Definition is_listing (rq : request) : bool :=
  match rq with
  | ListCapacityCommitmentsRequest _ | ListReservationsRequest _
  | ListAssignmentsRequest _ => true
  | _ => false
  end.

Definition is_create (rq : request) : bool :=
  match rq with
  | CreateCapacityCommitmentRequest _ _ | CreateReservationRequest _ _ _
  | CreateAssignmentRequest _ _ => true
  | _ => false
  end.

Definition is_delete (rq : request) : bool :=
  match rq with
  | DeleteAssignmentRequest _ | DeleteReservationRequest _
  | DeleteCapacityCommitmentRequest _ => true
  | _ => false
  end.

Definition is_delete_assignment (rq : request) : bool :=
  match rq with DeleteAssignmentRequest _ => true | _ => false end.

Definition is_delete_reservation (rq : request) : bool :=
  match rq with DeleteReservationRequest _ => true | _ => false end.

Definition is_delete_commitment (rq : request) : bool :=
  match rq with DeleteCapacityCommitmentRequest _ => true | _ => false end.

(** How many of the calls in [evs] have a request satisfying [f]. *)
Definition count_calls (f : request -> bool) (evs : list event) : nat :=
  List.length (filter (fun ev => f (ev_request ev)) evs).


(** ** The calls and the log of a report and of a teardown *)

(** The calls of a listing that returned. *)
Definition listed_reservations (parent : string) (rs : list Reservation.t) : event :=
  Event (ListReservationsRequest parent) None (Returned (map Reservation.name rs)).

Definition listed_assignments (r : Reservation.t) (asg : list Assignment.t) : event :=
  Event (ListAssignmentsRequest (Reservation.name r)) None
        (Returned (map Assignment.name asg)).

Definition listed_commitments (parent : string) (cs : list CapacityCommitment.t)
  : event :=
  Event (ListCapacityCommitmentsRequest parent) None
        (Returned (map CapacityCommitment.name cs)).




(** The deletes of a teardown that went through. *)
Definition deleted_assignment (a : Assignment.t) : event :=
  Event (DeleteAssignmentRequest (Assignment.name a)) None (Returned []).

Definition deleted_reservation (r : Reservation.t) : event :=
  Event (DeleteReservationRequest (Reservation.name r)) None (Returned []).

Definition deleted_commitment (retry : Retry) (c : CapacityCommitment.t) : event :=
  Event (DeleteCapacityCommitmentRequest (CapacityCommitment.name c))
        (Some retry) (Returned []).

(** One reservation: list its assignments, delete them, delete it. *)
Definition teardown_reservation (ra : Reservation.t * list Assignment.t)
  : list event :=
  (listed_assignments (fst ra) (snd ra)
   :: map deleted_assignment (snd ra) ++ [deleted_reservation (fst ra)])%list.

Definition teardown_reservations (parent : string) (rs : list Reservation.t)
    (ass : list (list Assignment.t)) : list event :=
  listed_reservations parent rs
  :: concat (map teardown_reservation (combine rs ass)).

Definition teardown_commitments (retry : Retry) (parent : string)
    (cs : list CapacityCommitment.t) : list event :=
  listed_commitments parent cs :: map (deleted_commitment retry) cs.

Definition cleanup_calls (retry : Retry) (parent : string)
    (rs : list Reservation.t) (ass : list (list Assignment.t))
    (cs : list CapacityCommitment.t) : list event :=
  (teardown_reservations parent rs ass ++ teardown_commitments retry parent cs)%list.

Definition teardown_lines (ra : Reservation.t * list Assignment.t) : list string :=
  app (map (fun a => "Deleted assignment " ++ Assignment.name a) (snd ra))
      ["Deleted reservation " ++ Reservation.name (fst ra)].

Definition cleanup_log (rs : list Reservation.t) (ass : list (list Assignment.t))
    (cs : list CapacityCommitment.t) : list string :=
  app (concat (map teardown_lines (combine rs ass)))
      (map (fun c => "Deleted commitment " ++ CapacityCommitment.name c) cs).

(** ** Retry arguments, reservation names and processes *)

(** The retry argument and the reservation name of a call: only the delete of
    a commitment carries a retry policy, and a reservation is created under
    the name [default_name]. *)
Definition disciplined (default_name : string) (ev : event) : Prop :=
  match ev_request ev with
  | DeleteCapacityCommitmentRequest _ => ev_retry ev = Some commitment_retry
  | CreateReservationRequest _ reservation_id _ =>
      ev_retry ev = None /\ reservation_id = default_name
  | _ => ev_retry ev = None
  end.

(** One process: the requests are served in turn by the same loaded module. *)
Fixpoint serve_all {R} (rt : PyRuntime) (client : ReservationServiceClient R)
    (default_name : string) (requests : list Request) (w : World R)
  : list Response * World R :=
  match requests with
  | [] => ([], w)
  | request :: rest =>
      let (response, w1) := serve rt client default_name request w in
      let (responses, w2) := serve_all rt client default_name rest w1 in
      (response :: responses, w2)
  end.

(** Import [main.py] at the time [today] with the random state [g], then
    serve [requests] against a service in state [r]. *)
Definition process {R} (rt : PyRuntime) (client : ReservationServiceClient R)
    (today : datetime) (g : Rng) (requests : list Request) (r : R)
  : list Response * World R :=
  serve_all rt client (fst (get_reservation_name today g)) requests
            {| remote := r; journal := []; stdout := [] |}.

(** ** The provisioning transaction and what it leaves *)

(** The messages [purchase] sends. *)
Definition commitment_config (slots : Z) : CapacityCommitment.t :=
  {| CapacityCommitment.name := EmptyString; CapacityCommitment.plan := "FLEX";
     CapacityCommitment.slot_count := slots |}.

Definition reservation_config (slots : Z) : Reservation.t :=
  {| Reservation.name := EmptyString; Reservation.slot_capacity := slots;
     Reservation.ignore_idle_slots := false |}.

Definition assignment_config (rt : PyRuntime) (project_id : pyvalue) : Assignment.t :=
  {| Assignment.name := EmptyString; Assignment.job_type := "QUERY";
     Assignment.assignee := "projects/" ++ py_str rt project_id |}.

(** The journal entry for the result of a delete. *)
Definition delete_outcome (res : exn + unit) : outcome :=
  match res with inl e => Raised e | inr _ => Returned [] end.

(** The exception that leaves a handler which ran a delete with result [d]
    while handling [e]: a delete that raises replaces what was being
    propagated. *)
Definition propagated (e : exn) (d : exn + unit) : exn :=
  match d with inl e' => e' | inr _ => e end.

Definition is_create_assignment (rq : request) : bool :=
  match rq with CreateAssignmentRequest _ _ => true | _ => false end.

(** The three kinds of resources. *)
Inductive kind := KCommitment | KReservation | KAssignment.

Definition kind_eqb (k1 k2 : kind) : bool :=
  match k1, k2 with
  | KCommitment, KCommitment | KReservation, KReservation
  | KAssignment, KAssignment => true
  | _, _ => false
  end.

Definition created_kind (rq : request) : option kind :=
  match rq with
  | CreateCapacityCommitmentRequest _ _ => Some KCommitment
  | CreateReservationRequest _ _ _ => Some KReservation
  | CreateAssignmentRequest _ _ => Some KAssignment
  | _ => None
  end.

Definition deleted_resource (rq : request) : option (kind * string) :=
  match rq with
  | DeleteAssignmentRequest name => Some (KAssignment, name)
  | DeleteReservationRequest name => Some (KReservation, name)
  | DeleteCapacityCommitmentRequest name => Some (KCommitment, name)
  | _ => None
  end.

Definition same_resource (x y : kind * string) : bool :=
  kind_eqb (fst x) (fst y) && String.eqb (snd x) (snd y).

(** The resources still there after the calls [evs], starting from [live]:
    a create that returned adds what it returned, a delete that returned
    removes its target. *)
Fixpoint leftover (evs : list event) (live : list (kind * string))
  : list (kind * string) :=
  match evs with
  | [] => live
  | ev :: evs' =>
      match ev_outcome ev with
      | Raised _ => leftover evs' live
      | Returned names =>
          match created_kind (ev_request ev), deleted_resource (ev_request ev) with
          | Some k, _ => leftover evs' (app live (map (pair k) names))
          | None, Some x =>
              leftover evs' (filter (fun y => negb (same_resource x y)) live)
          | None, None => leftover evs' live
          end
      end
  end.

(** What a delete with result [d] leaves of its target [x]. *)
Definition kept (d : exn + unit) (x : kind * string) : list (kind * string) :=
  match d with inl _ => [x] | inr _ => [] end.

(** The ids under which the calls [evs] asked for a reservation. *)
Definition reservation_ids (evs : list event) : list string :=
  flat_map (fun ev => match ev_request ev with
                      | CreateReservationRequest _ reservation_id _ =>
                          [reservation_id]
                      | _ => []
                      end) evs.

(** ** Further vocabulary *)

Definition json_required : Response :=
  make_response
    (jsonify [("message", PyStr "json request is required");
              ("severity", PyStr "error")])
    400.

(** The answer of a purchase that went through. *)
Definition purchased (rt : PyRuntime) (project_id location : pyvalue) (slots : Z)
    (c : CapacityCommitment.t) (rv : Reservation.t) (a : Assignment.t) : Response :=
  make_response
    (jsonify [("message",
               PyStr ("Successfully purchased commitment for " ++ string_of_Z slots
                      ++ " slots in project " ++ py_str rt project_id
                      ++ " located in " ++ py_str rt location));
              ("commitment", PyStr (CapacityCommitment.name c));
              ("reservation", PyStr (Reservation.name rv));
              ("assignment", PyStr (Assignment.name a));
              ("severity", PyStr "info")])
    200.

(** A JSON object, as opposed to any other JSON value. *)
Definition is_object (v : pyvalue) : bool :=
  match v with PyDict _ => true | _ => false end.

(** The call returned. *)
Definition returned (ev : event) : Prop :=
  match ev_outcome ev with Returned _ => True | Raised _ => False end.

(** [fails_fast m]: [m] raises exactly when one of its calls raises; that
    call is then the last one it makes, every call before it returned, and
    the exception of that call is the one [m] raises. *)
Definition fails_fast {R A} (m : M R A) : Prop :=
  forall w, exists evs,
    journal (snd (m w)) = app (journal w) evs /\
    match fst (m w) with
    | inr _ => Forall returned evs
    | inl e =>
        exists before rq retry,
          evs = app before [Event rq retry (Raised e)] /\ Forall returned before
    end.

(** The line that [cleanup] logs for a call: one for a delete that returned,
    none for anything else. *)
Definition delete_line (ev : event) : list string :=
  match ev_request ev, ev_outcome ev with
  | DeleteAssignmentRequest name, Returned _ => ["Deleted assignment " ++ name]
  | DeleteReservationRequest name, Returned _ => ["Deleted reservation " ++ name]
  | DeleteCapacityCommitmentRequest name, Returned _ =>
      ["Deleted commitment " ++ name]
  | _, _ => []
  end.

(** Every delete among the calls [evs] has for target a resource that an
    earlier create among them returned, or one of [made]. *)
Fixpoint deletes_own (evs : list event) (made : list (kind * string)) : bool :=
  match evs with
  | [] => true
  | ev :: evs' =>
      match deleted_resource (ev_request ev) with
      | Some x => existsb (same_resource x) made && deletes_own evs' made
      | None =>
          match created_kind (ev_request ev), ev_outcome ev with
          | Some k, Returned names =>
              deletes_own evs' (app made (map (pair k) names))
          | _, _ => deletes_own evs' made
          end
      end
  end.

(** Characters of a reservation name. *)
Definition is_lower (c : ascii) : bool :=
  ((97 <=? nat_of_ascii c) && (nat_of_ascii c <=? 122))%nat.

Definition is_digit (c : ascii) : bool :=
  ((48 <=? nat_of_ascii c) && (nat_of_ascii c <=? 57))%nat.

Definition name_char (c : ascii) : bool :=
  is_lower c || is_digit c || Ascii.eqb c "-".

Fixpoint string_forall (f : ascii -> bool) (s : string) : bool :=
  match s with
  | EmptyString => true
  | String c s' => f c && string_forall f s'
  end.

(** * Properties *)

(** ** Dictionaries *)

Lemma dict_in_true (k : string) (d : pydict) :
  dict_in k d = true <-> exists v, dict_get k d = Some v.
Proof.
  unfold dict_in. destruct (dict_get k d) as [v|].
  - split; [eauto | reflexivity].
  - split; [discriminate | intros [v H]; discriminate].
Qed.

Lemma dict_in_false (k : string) (d : pydict) :
  dict_in k d = false <-> dict_get k d = None.
Proof.
  unfold dict_in. destruct (dict_get k d); split; congruence.
Qed.

(** ** What a computation enters in the journal *)

Section Journal.

Context {R : Type}.
Variable P : event -> Prop.

Lemma emits_ret {A} (a : A) : emits P (ret a : M R A).
Proof. intros w. exists []. simpl. rewrite app_nil_r. auto. Qed.

Lemma emits_raise {A} (e : exn) : emits P (@raise R A e).
Proof. intros w. exists []. simpl. rewrite app_nil_r. auto. Qed.

Lemma emits_lift {A} (r : exn + A) : emits P (lift r : M R A).
Proof. destruct r; [apply emits_raise | apply emits_ret]. Qed.

Lemma emits_print (line : string) : emits P (print line : M R unit).
Proof. intros w. exists []. simpl. rewrite app_nil_r. auto. Qed.

Lemma emits_bind {A B} (m : M R A) (k : A -> M R B) :
  emits P m -> (forall a, emits P (k a)) -> emits P (bind m k).
Proof.
  intros Hm Hk w. unfold bind.
  destruct (Hm w) as [evs1 [E1 F1]].
  destruct (m w) as [[e|a] w1]; simpl in E1.
  - exists evs1. auto.
  - destruct (Hk a w1) as [evs2 [E2 F2]].
    exists (evs1 ++ evs2)%list. rewrite E2, E1, app_assoc.
    split; [reflexivity | apply Forall_app; auto].
Qed.

Lemma emits_try_except {A} (body : M R A) (handler : exn -> M R A) :
  emits P body -> (forall e, emits P (handler e)) -> emits P (try_except body handler).
Proof.
  intros Hb Hh w. unfold try_except.
  destruct (Hb w) as [evs1 [E1 F1]].
  destruct (body w) as [[e|a] w1]; simpl in E1.
  - destruct (Hh e w1) as [evs2 [E2 F2]].
    exists (evs1 ++ evs2)%list. rewrite E2, E1, app_assoc.
    split; [reflexivity | apply Forall_app; auto].
  - exists evs1. auto.
Qed.

Lemma emits_call {A} (req : request) (retry : option Retry)
    (names : A -> list string) (method : R -> (exn + A) * R) :
  (forall out, P (Event req retry out)) -> emits P (call req retry names method).
Proof.
  intros HP w. unfold call.
  destruct (method (remote w)) as [res r'].
  eexists [_]. simpl. unfold append. split; [reflexivity | auto].
Qed.

Lemma emits_for_each {A S} (xs : list A) (body : A -> S -> M R S) :
  (forall x acc, emits P (body x acc)) ->
  forall acc, emits P (for_each xs body acc).
Proof.
  intros Hb. induction xs as [|x xs IH]; intros acc; simpl.
  - apply emits_ret.
  - apply emits_bind; auto.
Qed.

End Journal.

(** Decompose a computation along its binds, loops and handlers. *)
Ltac emits_step :=
  first
    [ apply emits_ret
    | apply emits_raise
    | apply emits_lift
    | apply emits_print
    | apply emits_bind; [| intro]
    | apply emits_try_except; [| intro]
    | apply emits_for_each; intros ].

Lemma emits_weaken {R A} (P Q : event -> Prop) (m : M R A) :
  (forall ev, P ev -> Q ev) -> emits P m -> emits Q m.
Proof.
  intros HPQ Hm w. destruct (Hm w) as [evs [E F]].
  exists evs. split; [exact E | eapply Forall_impl; eauto].
Qed.

(** ** The dispatcher *)

Section Dispatcher.

Variable rt : PyRuntime.
Variable R : Type.
Variable client : ReservationServiceClient R.
Variable default_name : string.

(** [main_http] on a JSON object, by the fields it looks up. *)
Lemma main_http_object (d : pydict) (w : World R) :
  main_http rt client default_name (json_request d) w =
  match dict_get "project_id" d with
  | None =>
      (inr project_id_required,
       {| remote := remote w; journal := journal w;
          stdout := append (stdout w)
                      "Error: project_id is required in the json request" |})
  | Some project_id =>
      let location := dict_get_default "location" (PyStr "EU") d in
      let slots := dict_get_default "slots" (PyInt 100) d in
      match dict_get "operation" d with
      | None => (inr operations_available, w)
      | Some operation =>
          if str_eq "report" operation then
            report_http rt (json_request d) client project_id location w
          else if str_eq "cleanup" operation then
            cleanup_http rt (json_request d) client project_id location w
          else if str_eq "purchase" operation then
            match py_int rt slots with
            | inl e => (inl e, w)
            | inr n =>
                purchase_http rt default_name (json_request d) client
                  project_id location n w
            end
          else (inr (unsupported_operation rt operation), w)
      end
  end.
Proof.
  unfold main_http, get_json, json_request. cbn [json py_contains py_getitem py_get].
  unfold dict_in, bind, lift, ret, raise. cbn [negb].
  destruct (dict_get "project_id" d) as [project_id|]; cbn [negb]; [| reflexivity].
  destruct (dict_get "operation" d) as [operation|]; cbn [negb]; [| reflexivity].
  destruct (str_eq "report" operation); [reflexivity |].
  destruct (str_eq "cleanup" operation); [reflexivity |].
  destruct (str_eq "purchase" operation); [| reflexivity].
  destruct (py_int rt (dict_get_default "slots" (PyInt 100) d)); reflexivity.
Qed.

(** A request whose operation is none of the three known ones gets status 400
    with severity [info], and the service is not called. *)
Lemma unsupported_operation_response (d : pydict) (w : World R)
    (project_id operation : pyvalue) :
  dict_get "project_id" d = Some project_id ->
  dict_get "operation" d = Some operation ->
  str_eq "report" operation = false ->
  str_eq "cleanup" operation = false ->
  str_eq "purchase" operation = false ->
  serve rt client default_name (json_request d) w
  = (unsupported_operation rt operation, w).
Proof.
  intros Hp Ho H1 H2 H3. unfold serve.
  rewrite main_http_object, Hp, Ho. cbn zeta. rewrite H1, H2, H3. reflexivity.
Qed.

Lemma slots_unused (d1 d2 : pydict) (w : World R) :
  differ_only_in_slots d1 d2 ->
  (forall op, dict_get "operation" d1 = Some op -> str_eq "purchase" op = false) ->
  main_http rt client default_name (json_request d1) w
  = main_http rt client default_name (json_request d2) w.
Proof.
  intros Hd Hop. rewrite !main_http_object.
  rewrite <- (Hd "project_id") by discriminate.
  rewrite <- (Hd "operation") by discriminate.
  unfold dict_get_default. rewrite <- (Hd "location") by discriminate.
  destruct (dict_get "project_id" d1) as [project_id|]; [| reflexivity].
  cbn zeta.
  destruct (dict_get "operation" d1) as [operation|] eqn:Ho; [| reflexivity].
  rewrite (Hop operation eq_refl).
  reflexivity.
Qed.

End Dispatcher.

(** ** Listing and teardown *)

Section Runs.

Variable rt : PyRuntime.
Variable R : Type.
Variable client : ReservationServiceClient R.

(** *** [report] *)





(** *** The three deletes *)

Lemma delete_assignment_run (name : string) (w : World R) :
  delete_assignment client name w =
  match Client.delete_assignment client name None (remote w) with
  | (inr _, r') =>
      (inr ("Deleted assignment " ++ name),
       {| remote := r';
          journal := append (journal w)
                       (Event (DeleteAssignmentRequest name) None (Returned []));
          stdout := append (stdout w) ("Deleting assignment " ++ name) |})
  | (inl e, r') =>
      (inl e,
       {| remote := r';
          journal := append (journal w)
                       (Event (DeleteAssignmentRequest name) None (Raised e));
          stdout := append (stdout w) ("Deleting assignment " ++ name) |})
  end.
Proof.
  unfold delete_assignment, bind, print, call, ret. cbn [remote journal stdout].
  destruct (Client.delete_assignment client name None (remote w)) as [[e|u] r'];
    reflexivity.
Qed.

Lemma delete_reservation_run (name : string) (w : World R) :
  delete_reservation client name w =
  match Client.delete_reservation client name None (remote w) with
  | (inr _, r') =>
      (inr ("Deleted reservation " ++ name),
       {| remote := r';
          journal := append (journal w)
                       (Event (DeleteReservationRequest name) None (Returned []));
          stdout := append (stdout w) ("Deleting reservation " ++ name) |})
  | (inl e, r') =>
      (inl e,
       {| remote := r';
          journal := append (journal w)
                       (Event (DeleteReservationRequest name) None (Raised e));
          stdout := append (stdout w) ("Deleting reservation " ++ name) |})
  end.
Proof.
  unfold delete_reservation, bind, print, call, ret. cbn [remote journal stdout].
  destruct (Client.delete_reservation client name None (remote w)) as [[e|u] r'];
    reflexivity.
Qed.

Lemma delete_commitment_run (name : string) (w : World R) :
  delete_commitment client name w =
  match Client.delete_capacity_commitment client name (Some commitment_retry)
          (remote w) with
  | (inr _, r') =>
      (inr ("Deleted commitment " ++ name),
       {| remote := r';
          journal := append (journal w)
                       (Event (DeleteCapacityCommitmentRequest name)
                              (Some commitment_retry) (Returned []));
          stdout := append (stdout w) ("Deleting commitment " ++ name) |})
  | (inl e, r') =>
      (inl e,
       {| remote := r';
          journal := append (journal w)
                       (Event (DeleteCapacityCommitmentRequest name)
                              (Some commitment_retry) (Raised e));
          stdout := append (stdout w) ("Deleting commitment " ++ name) |})
  end.
Proof.
  unfold delete_commitment, bind, print, call, ret. cbn [remote journal stdout].
  destruct (Client.delete_capacity_commitment client name (Some commitment_retry)
              (remote w)) as [[e|u] r']; reflexivity.
Qed.

(** *** [cleanup] *)

Lemma stopped_at_here (e : exn) (before : list event) (rq : request)
    (retry : option Retry) :
  stopped_at e before (append before (Event rq retry (Raised e))).
Proof. exists [], rq, retry. reflexivity. Qed.

Lemma stopped_at_later (e : exn) (before evs after : list event) :
  stopped_at e (app before evs) after -> stopped_at e before after.
Proof.
  intros [evs' [rq [retry E]]]. exists (app evs evs'), rq, retry.
  rewrite E, <- !app_assoc. reflexivity.
Qed.

Lemma cleanup_assignments_loop (asg : list Assignment.t) :
  forall (log : list string) (w : World R) res w',
    for_each asg
      (fun assignment log =>
         line <- delete_assignment client (Assignment.name assignment) ;;
         ret (append log line))
      log w = (res, w') ->
    match res with
    | inr log' =>
        journal w' = app (journal w) (map deleted_assignment asg) /\
        log' = app log (map (fun a => "Deleted assignment " ++ Assignment.name a) asg)
    | inl e => stopped_at e (journal w) (journal w')
    end.
Proof.
  induction asg as [|a asg IH]; intros log w res w' H; cbn [for_each] in H.
  - inversion H; subst. simpl. rewrite !app_nil_r. auto.
  - unfold bind at 1 in H. unfold bind at 1 in H.
    rewrite delete_assignment_run in H.
    destruct (Client.delete_assignment client (Assignment.name a) None (remote w))
      as [[e|u] r'].
    + inversion H; subst. apply stopped_at_here.
    + unfold ret at 1 in H. apply IH in H. cbn [journal] in H.
      destruct res as [e|log'].
      * apply stopped_at_later in H. exact H.
      * destruct H as [Hj Hlog]. split.
        -- rewrite Hj. unfold append. rewrite <- app_assoc. reflexivity.
        -- rewrite Hlog. unfold append. rewrite <- app_assoc. reflexivity.
Qed.

Lemma cleanup_reservations_loop (rs : list Reservation.t) :
  forall (log : list string) (w : World R) res w',
    for_each rs
      (fun reservation log =>
         assignments <- get_assignments client (Reservation.name reservation) ;;
         log <- for_each assignments
                  (fun assignment log =>
                     line <- delete_assignment client (Assignment.name assignment) ;;
                     ret (append log line))
                  log ;;
         line <- delete_reservation client (Reservation.name reservation) ;;
         ret (append log line))
      log w = (res, w') ->
    match res with
    | inr log' =>
        exists ass,
          List.length ass = List.length rs /\
          journal w' =
            app (journal w) (concat (map teardown_reservation (combine rs ass))) /\
          log' = app log (concat (map teardown_lines (combine rs ass)))
    | inl e => stopped_at e (journal w) (journal w')
    end.
Proof.
  induction rs as [|r rs IH]; intros log w res w' H; cbn [for_each] in H.
  - inversion H; subst. exists []. simpl. rewrite !app_nil_r. auto.
  - unfold bind at 1 in H. unfold bind at 1, get_assignments at 1, call in H.
    destruct (Client.list_assignments client (Reservation.name r) None (remote w))
      as [[e|asg] r1].
    + inversion H; subst. apply stopped_at_here.
    + unfold bind at 1 in H.
      destruct (for_each asg _ _ _) as [[e|log1] w1] eqn:E;
        apply cleanup_assignments_loop in E; cbn [journal] in E.
      * inversion H; subst. apply stopped_at_later in E. exact E.
      * destruct E as [Ej Elog].
        unfold bind at 1 in H. rewrite delete_reservation_run in H.
        destruct (Client.delete_reservation client (Reservation.name r) None
                    (remote w1)) as [[e|u] r2].
        -- inversion H; subst. cbn [journal]. rewrite Ej.
           eapply stopped_at_later. apply stopped_at_later with (evs := map deleted_assignment asg).
           apply stopped_at_here.
        -- unfold ret at 1 in H. apply IH in H. cbn [journal] in H.
           rewrite Ej in H.
           destruct res as [e|log'].
           ++ do 3 apply stopped_at_later in H. exact H.
           ++ destruct H as [ass [Hlen [Hj Hlog]]].
              exists (asg :: ass). simpl. repeat split.
              ** congruence.
              ** rewrite Hj. unfold append, teardown_reservation at 2. simpl.
                 rewrite <- !app_assoc. reflexivity.
              ** rewrite Hlog, Elog. unfold append, teardown_lines at 2. simpl.
                 rewrite <- !app_assoc. reflexivity.
Qed.

Lemma cleanup_commitments_loop (cs : list CapacityCommitment.t) :
  forall (log : list string) (w : World R) res w',
    for_each cs
      (fun commitment log =>
         line <- delete_commitment client (CapacityCommitment.name commitment) ;;
         ret (append log line))
      log w = (res, w') ->
    match res with
    | inr log' =>
        journal w' = app (journal w) (map (deleted_commitment commitment_retry) cs) /\
        log' = app log (map (fun c => "Deleted commitment "
                                      ++ CapacityCommitment.name c) cs)
    | inl e => stopped_at e (journal w) (journal w')
    end.
Proof.
  induction cs as [|c cs IH]; intros log w res w' H; cbn [for_each] in H.
  - inversion H; subst. simpl. rewrite !app_nil_r. auto.
  - unfold bind at 1 in H. unfold bind at 1 in H.
    rewrite delete_commitment_run in H.
    destruct (Client.delete_capacity_commitment client (CapacityCommitment.name c)
                (Some commitment_retry) (remote w)) as [[e|u] r'].
    + inversion H; subst. apply stopped_at_here.
    + unfold ret at 1 in H. apply IH in H. cbn [journal] in H.
      destruct res as [e|log'].
      * apply stopped_at_later in H. exact H.
      * destruct H as [Hj Hlog]. split.
        -- rewrite Hj. unfold append. rewrite <- app_assoc. reflexivity.
        -- rewrite Hlog. unfold append. rewrite <- app_assoc. reflexivity.
Qed.

(** What a run of [cleanup] returns and enters in the journal. *)
Lemma cleanup_run (project_id location : pyvalue) (w : World R) res w' :
  cleanup rt client project_id location w = (res, w') ->
  match res with
  | inr log =>
      exists rs ass cs,
        List.length ass = List.length rs /\
        journal w' =
          app (journal w)
              (cleanup_calls commitment_retry
                 (common_location_path rt project_id location) rs ass cs) /\
        log = cleanup_log rs ass cs
  | inl e => stopped_at e (journal w) (journal w')
  end.
Proof.
  unfold cleanup. unfold bind at 1. unfold get_reservations, call.
  set (parent := common_location_path rt project_id location).
  destruct (Client.list_reservations client parent None (remote w)) as [[e|rs] r1].
  - intros H; inversion H; subst. apply stopped_at_here.
  - unfold bind at 1.
    destruct (for_each rs _ _ _) as [[e|log1] w1] eqn:E;
      apply cleanup_reservations_loop in E; cbn [journal] in E.
    + intros H; inversion H; subst. apply stopped_at_later in E. exact E.
    + destruct E as [ass [Hlen [Hj Hlog]]].
      unfold bind at 1. unfold get_commitments, call. fold parent.
      destruct (Client.list_capacity_commitments client parent None (remote w1))
        as [[e|cs] r2].
      * intros H; inversion H; subst. cbn [journal]. rewrite Hj.
        do 2 eapply stopped_at_later. apply stopped_at_here.
      * unfold bind at 1.
        destruct (for_each cs _ _ _) as [[e|log2] w2] eqn:E2;
          apply cleanup_commitments_loop in E2; cbn [journal] in E2.
        -- intros H; inversion H; subst. rewrite Hj in E2.
           do 3 apply stopped_at_later in E2. exact E2.
        -- unfold ret. intros H; inversion H; subst.
           destruct E2 as [Ej2 Elog2].
           exists rs, ass, cs. repeat split.
           ++ exact Hlen.
           ++ rewrite Ej2, Hj. unfold append, cleanup_calls, teardown_reservations,
                teardown_commitments. simpl. rewrite <- !app_assoc. reflexivity.
           ++ rewrite Elog2. reflexivity.
Qed.

End Runs.

(** ** Computations that leave the service as it is *)

Section Frame.

Context {R : Type}.





End Frame.

(** ** Counting the calls of a teardown *)

Lemma count_calls_app (f : request -> bool) (l1 l2 : list event) :
  count_calls f (l1 ++ l2) = (count_calls f l1 + count_calls f l2)%nat.
Proof. unfold count_calls. rewrite filter_app, length_app. reflexivity. Qed.










(** ** What the calls carry *)

Ltac emits_tac :=
  repeat first
    [ emits_step
    | apply emits_call; intros; cbv; auto
    | match goal with
      | |- emits _ (if ?b then _ else _) => destruct b
      | |- emits _ (match ?x with _ => _ end) => destruct x
      end ].

Section Discipline.

Variable rt : PyRuntime.
Variable R : Type.
Variable client : ReservationServiceClient R.
Variable default_name : string.



Lemma report_disciplined (project_id location : pyvalue) :
  emits (disciplined default_name) (report rt client project_id location).
Proof.
  unfold report, get_reservations, get_assignments, get_commitments. emits_tac.
Qed.

Lemma cleanup_disciplined (project_id location : pyvalue) :
  emits (disciplined default_name) (cleanup rt client project_id location).
Proof.
  unfold cleanup, get_reservations, get_assignments, get_commitments,
    delete_assignment, delete_reservation, delete_commitment.
  emits_tac.
Qed.

Lemma purchase_http_disciplined (request : Request)
    (project_id location : pyvalue) (slots : Z) :
  emits (disciplined default_name)
        (purchase_http rt default_name request client project_id location slots).
Proof.
  unfold purchase_http, purchase_commitment, create_reservation_and_assignment,
    create_assignment, get_message, delete_reservation, delete_commitment.
  emits_tac.
Qed.

Lemma main_http_disciplined (request : Request) :
  emits (disciplined default_name) (main_http rt client default_name request).
Proof.
  unfold main_http.
  assert (Hgo : forall data,
    emits (disciplined default_name)
      (has_project <- lift (py_contains rt "project_id" data) ;;
       if negb has_project then
         print "Error: project_id is required in the json request" ;;
         ret project_id_required
       else
         project_id <- lift (py_getitem rt data "project_id") ;;
         location <- lift (py_get data "location" (PyStr "EU")) ;;
         slots <- lift (py_get data "slots" (PyInt 100)) ;;
         has_operation <- lift (py_contains rt "operation" data) ;;
         if negb has_operation then ret operations_available
         else
           operation <- lift (py_getitem rt data "operation") ;;
           if str_eq "report" operation then
             report_http rt request client project_id location
           else if str_eq "cleanup" operation then
             cleanup_http rt request client project_id location
           else if str_eq "purchase" operation then
             n <- lift (py_int rt slots) ;;
             purchase_http rt default_name request client project_id location n
           else ret (unsupported_operation rt operation))).
  { intros data. unfold report_http, cleanup_http.
    repeat first
      [ apply report_disciplined
      | apply cleanup_disciplined
      | apply purchase_http_disciplined
      | emits_step
      | match goal with
        | |- emits _ (if ?b then _ else _) => destruct b
        end ]. }
  destruct (get_json request); try apply Hgo. emits_tac.
Qed.

Lemma serve_all_disciplined (requests : list Request) :
  forall w : World R,
    Forall (disciplined default_name) (journal w) ->
    Forall (disciplined default_name)
           (journal (snd (serve_all rt client default_name requests w))).
Proof.
  induction requests as [|request rest IH]; intros w Hw; simpl.
  - exact Hw.
  - unfold serve.
    destruct (main_http_disciplined request w) as [evs [E F]].
    destruct (main_http rt client default_name request w) as [[e|response] w1];
      simpl in E;
      specialize (IH w1);
      destruct (serve_all rt client default_name rest w1) as [responses w2];
      simpl in *; apply IH; rewrite E; apply Forall_app; auto.
Qed.

End Discipline.

(** ** The provisioning transaction *)

Lemma same_resource_refl (x : kind * string) : same_resource x x = true.
Proof.
  destruct x as [k n]. unfold same_resource. simpl.
  rewrite String.eqb_refl. destruct k; reflexivity.
Qed.

Section Purchase.

Variable rt : PyRuntime.
Variable R : Type.
Variable client : ReservationServiceClient R.
Variable default_name : string.

Variables (request : Request) (project_id location : pyvalue) (slots : Z).

(** Reservation creation fails after the commitment was bought. *)
Lemma purchase_reservation_fails (w : World R) (c : CapacityCommitment.t)
    (e : exn) (d : exn + unit) (r1 r2 r3 : R) :
  let parent := common_location_path rt project_id location in
  in_int64 slots = true ->
  Client.create_capacity_commitment client parent (commitment_config slots) None
    (remote w) = (inr c, r1) ->
  Client.create_reservation client parent default_name (reservation_config slots)
    None r1 = (inl e, r2) ->
  Client.delete_capacity_commitment client (CapacityCommitment.name c)
    (Some commitment_retry) r2 = (d, r3) ->
  exists w',
    purchase_http rt default_name request client project_id location slots w
    = (inl (propagated e d), w') /\
    remote w' = r3 /\
    journal w' =
      app (journal w)
          [Event (CreateCapacityCommitmentRequest parent (commitment_config slots))
                 None (Returned [CapacityCommitment.name c]);
           Event (CreateReservationRequest parent default_name
                    (reservation_config slots))
                 None (Raised e);
           Event (DeleteCapacityCommitmentRequest (CapacityCommitment.name c))
                 (Some commitment_retry) (delete_outcome d)].
Proof.
  cbv zeta. intros Hs H1 H2 H3.
  unfold purchase_http, purchase_commitment, create_reservation_and_assignment,
    delete_commitment, try_except, lift, int64_field, bind, print, call, ret, raise.
  rewrite ?Hs. cbn [remote journal stdout].
  change {| CapacityCommitment.name := EmptyString; CapacityCommitment.plan := "FLEX";
            CapacityCommitment.slot_count := slots |}
    with (commitment_config slots).
  rewrite H1. cbn [remote journal stdout].
  change {| Reservation.name := EmptyString; Reservation.slot_capacity := slots;
            Reservation.ignore_idle_slots := false |}
    with (reservation_config slots).
  rewrite H2. cbn [remote journal stdout]. rewrite H3.
  destruct d as [e'|u]; eexists; (split; [reflexivity |]); cbn [remote journal];
    unfold append; rewrite <- !app_assoc; auto.
Qed.

(** Assignment creation fails, with an exception that has a [message], after
    the commitment was bought and the reservation created. *)
Lemma purchase_assignment_fails (w : World R) (c : CapacityCommitment.t)
    (rv : Reservation.t) (e : exn) (message : string) (d1 d2 : exn + unit)
    (r1 r2 r3 r4 r5 : R) :
  let parent := common_location_path rt project_id location in
  in_int64 slots = true ->
  Client.create_capacity_commitment client parent (commitment_config slots) None
    (remote w) = (inr c, r1) ->
  Client.create_reservation client parent default_name (reservation_config slots)
    None r1 = (inr rv, r2) ->
  Client.create_assignment client (Reservation.name rv)
    (assignment_config rt project_id) None r2 = (inl e, r3) ->
  exn_message e = Some message ->
  Client.delete_reservation client (Reservation.name rv) None r3 = (d1, r4) ->
  Client.delete_capacity_commitment client (CapacityCommitment.name c)
    (Some commitment_retry) r4 = (d2, r5) ->
  exists w',
    purchase_http rt default_name request client project_id location slots w
    = (inl (propagated (propagated e d1) d2), w') /\
    remote w' = r5 /\
    journal w' =
      app (journal w)
          [Event (CreateCapacityCommitmentRequest parent (commitment_config slots))
                 None (Returned [CapacityCommitment.name c]);
           Event (CreateReservationRequest parent default_name
                    (reservation_config slots))
                 None (Returned [Reservation.name rv]);
           Event (CreateAssignmentRequest (Reservation.name rv)
                    (assignment_config rt project_id))
                 None (Raised e);
           Event (DeleteReservationRequest (Reservation.name rv)) None
                 (delete_outcome d1);
           Event (DeleteCapacityCommitmentRequest (CapacityCommitment.name c))
                 (Some commitment_retry) (delete_outcome d2)].
Proof.
  cbv zeta. intros Hs H1 H2 H3 Hm H4 H5.
  unfold purchase_http, purchase_commitment, create_reservation_and_assignment,
    create_assignment, get_message, delete_reservation, delete_commitment,
    try_except, lift, int64_field, bind, print, call, ret, raise.
  rewrite ?Hs. cbn [remote journal stdout].
  change {| CapacityCommitment.name := EmptyString; CapacityCommitment.plan := "FLEX";
            CapacityCommitment.slot_count := slots |}
    with (commitment_config slots).
  rewrite H1. cbn [remote journal stdout].
  change {| Reservation.name := EmptyString; Reservation.slot_capacity := slots;
            Reservation.ignore_idle_slots := false |}
    with (reservation_config slots).
  rewrite H2. cbn [remote journal stdout].
  change {| Assignment.name := EmptyString; Assignment.job_type := "QUERY";
            Assignment.assignee := "projects/" ++ py_str rt project_id |}
    with (assignment_config rt project_id).
  rewrite H3. cbn [remote journal stdout]. rewrite Hm.
  cbn [remote journal stdout]. rewrite H4.
  destruct d1 as [e1|u1]; cbn [remote journal stdout]; rewrite H5;
    destruct d2 as [e2|u2]; eexists; (split; [reflexivity |]);
    cbn [remote journal]; unfold append; rewrite <- !app_assoc; auto.
Qed.

End Purchase.


(** With slots that fit a signed 64-bit field, and without a [message] on
    the exception of the failed assignment, the
    handler of [create_reservation_and_assignment] fails on its first line:
    the reservation is not deleted, and the [AttributeError] is what
    propagates once the commitment is rolled back. *)
Lemma purchase_assignment_fails_without_message (rt : PyRuntime) (R : Type)
    (client : ReservationServiceClient R) (default_name : string)
    (request : Request) (project_id location : pyvalue) (slots : Z)
    (w : World R) (c : CapacityCommitment.t) (rv : Reservation.t) (e : exn)
    (d : exn + unit) (r1 r2 r3 r4 : R) :
  let parent := common_location_path rt project_id location in
  in_int64 slots = true ->
  Client.create_capacity_commitment client parent (commitment_config slots) None
    (remote w) = (inr c, r1) ->
  Client.create_reservation client parent default_name (reservation_config slots)
    None r1 = (inr rv, r2) ->
  Client.create_assignment client (Reservation.name rv)
    (assignment_config rt project_id) None r2 = (inl e, r3) ->
  exn_message e = None ->
  Client.delete_capacity_commitment client (CapacityCommitment.name c)
    (Some commitment_retry) r3 = (d, r4) ->
  exists w',
    purchase_http rt default_name request client project_id location slots w
    = (inl (propagated (AttributeError (exn_type e) "message") d), w') /\
    remote w' = r4 /\
    count_calls is_delete_reservation (journal w')
    = count_calls is_delete_reservation (journal w).
Proof.
  intros parent Hs H1 H2 H3 Hm H4.
  unfold purchase_http, purchase_commitment, create_reservation_and_assignment,
    create_assignment, get_message, delete_reservation, delete_commitment,
    try_except, lift, int64_field, bind, print, call, ret, raise.
  rewrite ?Hs. cbn [remote journal stdout]. fold parent.
  change {| CapacityCommitment.name := EmptyString; CapacityCommitment.plan := "FLEX";
            CapacityCommitment.slot_count := slots |}
    with (commitment_config slots).
  rewrite H1. cbn [remote journal stdout].
  change {| Reservation.name := EmptyString; Reservation.slot_capacity := slots;
            Reservation.ignore_idle_slots := false |}
    with (reservation_config slots).
  rewrite H2. cbn [remote journal stdout].
  change {| Assignment.name := EmptyString; Assignment.job_type := "QUERY";
            Assignment.assignee := "projects/" ++ py_str rt project_id |}
    with (assignment_config rt project_id).
  rewrite H3. cbn [remote journal stdout]. rewrite Hm.
  cbn [remote journal stdout]. rewrite H4.
  destruct d as [e'|u]; eexists; (split; [reflexivity |]); cbn [remote journal];
    unfold append; rewrite !count_calls_app; unfold count_calls; simpl;
    (split; [reflexivity | lia]).
Qed.

(** Only the delete of a commitment is called with a retry policy, and the
    policy is [Retry(deadline=90, predicate=Exception, maximum=2)]. *)
Lemma retry_only_on_commitment_delete (rt : PyRuntime) (R : Type)
    (client : ReservationServiceClient R) (default_name : string)
    (request : Request) (w : World R) :
  exists evs,
    journal (snd (main_http rt client default_name request w))
    = app (journal w) evs /\
    Forall (fun ev =>
              ev_retry ev =
              if is_delete_commitment (ev_request ev)
              then Some {| deadline := 90; predicate := Exception; maximum := 2 |}
              else None) evs.
Proof.
  destruct (main_http_disciplined rt client default_name request w) as [evs [E F]].
  exists evs. split; [exact E |].
  eapply Forall_impl; [| exact F].
  intros [rq retry out]. unfold disciplined. simpl.
  destruct rq; simpl; try tauto.
Qed.

(** Slots that do not fit an [int64]: the commitment message cannot be
    built, and the purchase ends there, after its first line of output and
    before any call. *)
Lemma purchase_http_out_of_range (rt : PyRuntime) (R : Type)
    (client : ReservationServiceClient R) (default_name : string)
    (request : Request) (project_id location : pyvalue) (slots : Z)
    (w : World R) :
  in_int64 slots = false ->
  purchase_http rt default_name request client project_id location slots w
  = (inl (ValueError rt "int64 field: value out of range" (PyInt slots)),
     {| remote := remote w; journal := journal w;
        stdout := append (stdout w)
                    ("Purchasing commitment for " ++ string_of_Z slots
                     ++ " FLEX slots in project " ++ py_str rt project_id
                     ++ " in " ++ py_str rt location) |}).
Proof.
  intros Hs.
  unfold purchase_http, purchase_commitment, lift, int64_field, bind, print,
    raise.
  rewrite Hs. reflexivity.
Qed.

Lemma purchase_http_first_call (rt : PyRuntime) (R : Type)
    (client : ReservationServiceClient R) (default_name : string)
    (request : Request) (project_id location : pyvalue) (slots : Z)
    (w : World R) :
  in_int64 slots = true ->
  exists out rest,
    journal (snd (purchase_http rt default_name request client project_id
                    location slots w))
    = app (journal w)
          (Event (CreateCapacityCommitmentRequest
                    (common_location_path rt project_id location)
                    (commitment_config slots)) None out :: rest).
Proof.
  intros Hs. unfold purchase_http.
  match goal with |- context [bind _ ?k] => set (K := k) end.
  unfold bind.
  assert (Hout : exists out,
    journal (snd (purchase_commitment rt client project_id location slots
                    "FLEX" w))
    = app (journal w)
          [Event (CreateCapacityCommitmentRequest
                    (common_location_path rt project_id location)
                    (commitment_config slots)) None out]).
  { unfold purchase_commitment, lift, int64_field, bind, print, call, ret.
    rewrite Hs. cbn [remote journal stdout].
    change {| CapacityCommitment.name := EmptyString;
              CapacityCommitment.plan := "FLEX";
              CapacityCommitment.slot_count := slots |}
      with (commitment_config slots).
    destruct (Client.create_capacity_commitment client _ _ None (remote w))
      as [[e|c] r1]; eexists; cbn [journal snd]; unfold append; reflexivity. }
  destruct Hout as [out Hout].
  destruct (purchase_commitment rt client project_id location slots "FLEX" w)
    as [[e|c] w1]; cbn [snd] in *.
  - exists out, []. exact Hout.
  - assert (H : emits (fun _ => True) (K c)).
    { subst K. cbv beta.
      unfold create_reservation_and_assignment, create_assignment, get_message,
        delete_reservation, delete_commitment. emits_tac. }
    destruct (H w1) as [evs [E _]].
    exists out, evs. rewrite E, Hout, <- app_assoc. reflexivity.
Qed.

(** * The claims *)

(** C1, as amended.  The slots fit a signed 64-bit field, as they must for
    the creates to be called at all.  Commitment and reservation creation
    succeed and assignment creation raises an exception [e] that has a
    [message].  Then
    the transaction calls the delete of the reservation it created, then the
    delete of the commitment, and no other call.  When both deletes return,
    [e] itself is raised again and nothing the transaction created is left;
    a delete that raises leaves its target and its exception is what
    propagates. *)
Theorem C1_assignment_failure_rolls_back (rt : PyRuntime) (R : Type)
    (client : ReservationServiceClient R) (default_name : string)
    (request : Request) (project_id location : pyvalue) (slots : Z)
    (w : World R) (c : CapacityCommitment.t) (rv : Reservation.t) (e : exn)
    (message : string) (d1 d2 : exn + unit) (r1 r2 r3 r4 r5 : R) :
  let parent := common_location_path rt project_id location in
  in_int64 slots = true ->
  Client.create_capacity_commitment client parent (commitment_config slots) None
    (remote w) = (inr c, r1) ->
  Client.create_reservation client parent default_name (reservation_config slots)
    None r1 = (inr rv, r2) ->
  Client.create_assignment client (Reservation.name rv)
    (assignment_config rt project_id) None r2 = (inl e, r3) ->
  exn_message e = Some message ->
  Client.delete_reservation client (Reservation.name rv) None r3 = (d1, r4) ->
  Client.delete_capacity_commitment client (CapacityCommitment.name c)
    (Some commitment_retry) r4 = (d2, r5) ->
  exists w' evs,
    purchase_http rt default_name request client project_id location slots w
    = (inl (propagated (propagated e d1) d2), w') /\
    remote w' = r5 /\
    journal w' = app (journal w) evs /\
    evs = [Event (CreateCapacityCommitmentRequest parent (commitment_config slots))
                 None (Returned [CapacityCommitment.name c]);
           Event (CreateReservationRequest parent default_name
                    (reservation_config slots))
                 None (Returned [Reservation.name rv]);
           Event (CreateAssignmentRequest (Reservation.name rv)
                    (assignment_config rt project_id))
                 None (Raised e);
           Event (DeleteReservationRequest (Reservation.name rv)) None
                 (delete_outcome d1);
           Event (DeleteCapacityCommitmentRequest (CapacityCommitment.name c))
                 (Some commitment_retry) (delete_outcome d2)] /\
    leftover evs [] =
      app (kept d2 (KCommitment, CapacityCommitment.name c))
          (kept d1 (KReservation, Reservation.name rv)).
Proof.
  intros parent Hs H1 H2 H3 Hm H4 H5.
  destruct (purchase_assignment_fails rt client default_name request project_id
              location slots w (message := message) Hs H1 H2 H3 Hm H4 H5)
    as [w' [Hrun [Hr Hj]]].
  exists w'. eexists. repeat split; [exact Hrun | exact Hr | exact Hj |].
  clear. destruct d1 as [e1|u1], d2 as [e2|u2]; simpl;
    rewrite ?same_resource_refl; reflexivity.
Qed.

(** A run of C1 on the in-memory service: the assignment cannot be created,
    both deletes go through, the original exception comes back and the
    service is empty again. *)
Lemma C1_witness :
  let s := Fake.failing [("create_assignment", Fake.unavailable)] Fake.empty in
  exists w' evs,
    purchase_http Fake.runtime "NAME" (Fake.purchase_request (PyInt 50))
      Fake.client (PyStr "p1") (PyStr "EU") 50 (Fake.world s)
    = (inl Fake.unavailable, w') /\
    remote w' = Fake.failing [("create_assignment", Fake.unavailable)]
                  {| Fake.commitments := []; Fake.reservations := [];
                     Fake.assignments := []; Fake.counter := 1;
                     Fake.faults := [] |} /\
    journal w' = app [] evs /\
    List.length evs = 5%nat /\
    leftover evs [] = [].
Proof.
  cbv zeta.
  destruct (@C1_assignment_failure_rolls_back Fake.runtime Fake.state Fake.client
              "NAME" (Fake.purchase_request (PyInt 50)) (PyStr "p1") (PyStr "EU")
              50 (Fake.world (Fake.failing [("create_assignment", Fake.unavailable)]
                                Fake.empty))
              _ _ Fake.unavailable "backend unavailable" (inr tt) (inr tt)
              _ _ _ _ _
              eq_refl eq_refl eq_refl eq_refl eq_refl eq_refl eq_refl)
    as [w' [evs [Hrun [Hr [Hj [He Hl]]]]]].
  exists w', evs. repeat split.
  - exact Hrun.
  - exact Hr.
  - exact Hj.
  - rewrite He. reflexivity.
  - exact Hl.
Defined.

(** C1 as stated fails when a compensating delete raises: here the delete of
    the reservation does.  The exception that propagates is the delete's, not
    that of the failed assignment, and the reservation stays. *)
Lemma C1_counterexample :
  let s := Fake.failing [("create_assignment", Fake.unavailable);
                         ("delete_reservation", Fake.deadline_exceeded)]
                        Fake.empty in
  let run := purchase_http Fake.runtime "NAME" (Fake.purchase_request (PyInt 50))
               Fake.client (PyStr "p1") (PyStr "EU") 50 (Fake.world s) in
  map ev_outcome (firstn 3 (journal (snd run)))
  = [Returned ["projects/p1/locations/EU/capacityCommitments/0"];
     Returned ["projects/p1/locations/EU/reservations/NAME"];
     Raised Fake.unavailable] /\
  fst run = inl Fake.deadline_exceeded /\
  fst run <> inl Fake.unavailable /\
  map Reservation.name (Fake.reservations (remote (snd run)))
  = ["projects/p1/locations/EU/reservations/NAME"] /\
  leftover (journal (snd run)) []
  = [(KReservation, "projects/p1/locations/EU/reservations/NAME")].
Proof.
  cbv zeta. repeat split; try reflexivity. vm_compute. discriminate.
Qed.

(** C2, as amended.  The slots fit a signed 64-bit field, as they must for
    the creates to be called at all.  Commitment creation succeeds and
    reservation creation raises [e].  Then the delete of the commitment is called before anything
    propagates, and no assignment is ever asked for.  When the delete
    returns, [e] itself is raised again and the commitment is gone; when it
    raises, its exception propagates and the commitment stays. *)
Theorem C2_reservation_failure_rolls_back (rt : PyRuntime) (R : Type)
    (client : ReservationServiceClient R) (default_name : string)
    (request : Request) (project_id location : pyvalue) (slots : Z)
    (w : World R) (c : CapacityCommitment.t) (e : exn) (d : exn + unit)
    (r1 r2 r3 : R) :
  let parent := common_location_path rt project_id location in
  in_int64 slots = true ->
  Client.create_capacity_commitment client parent (commitment_config slots) None
    (remote w) = (inr c, r1) ->
  Client.create_reservation client parent default_name (reservation_config slots)
    None r1 = (inl e, r2) ->
  Client.delete_capacity_commitment client (CapacityCommitment.name c)
    (Some commitment_retry) r2 = (d, r3) ->
  exists w' evs,
    purchase_http rt default_name request client project_id location slots w
    = (inl (propagated e d), w') /\
    remote w' = r3 /\
    journal w' = app (journal w) evs /\
    evs = [Event (CreateCapacityCommitmentRequest parent (commitment_config slots))
                 None (Returned [CapacityCommitment.name c]);
           Event (CreateReservationRequest parent default_name
                    (reservation_config slots))
                 None (Raised e);
           Event (DeleteCapacityCommitmentRequest (CapacityCommitment.name c))
                 (Some commitment_retry) (delete_outcome d)] /\
    count_calls is_create_assignment evs = 0%nat /\
    leftover evs [] = kept d (KCommitment, CapacityCommitment.name c).
Proof.
  intros parent Hs H1 H2 H3.
  destruct (purchase_reservation_fails rt client default_name request project_id
              location slots w Hs H1 H2 H3) as [w' [Hrun [Hr Hj]]].
  exists w'. eexists. repeat split; [exact Hrun | exact Hr | exact Hj |].
  clear. destruct d as [e'|u]; simpl; rewrite ?same_resource_refl; reflexivity.
Qed.

(** A run of C2 on the in-memory service: the reservation cannot be created,
    the commitment is deleted and the original exception comes back. *)
Lemma C2_witness :
  let s := Fake.failing [("create_reservation", Fake.unavailable)] Fake.empty in
  exists w' evs,
    purchase_http Fake.runtime "NAME" (Fake.purchase_request (PyInt 50))
      Fake.client (PyStr "p1") (PyStr "EU") 50 (Fake.world s)
    = (inl Fake.unavailable, w') /\
    Fake.commitments (remote w') = [] /\
    journal w' = app [] evs /\
    count_calls is_create_assignment evs = 0%nat /\
    leftover evs [] = [].
Proof.
  cbv zeta.
  destruct (@C2_reservation_failure_rolls_back Fake.runtime Fake.state Fake.client
              "NAME" (Fake.purchase_request (PyInt 50)) (PyStr "p1") (PyStr "EU")
              50 (Fake.world (Fake.failing [("create_reservation", Fake.unavailable)]
                                Fake.empty))
              _ Fake.unavailable (inr tt) _ _ _ eq_refl eq_refl eq_refl eq_refl)
    as [w' [evs [Hrun [Hr [Hj [He [Hc Hl]]]]]]].
  exists w', evs. repeat split.
  - exact Hrun.
  - rewrite Hr. reflexivity.
  - exact Hj.
  - exact Hc.
  - exact Hl.
Defined.

(** C2 as stated fails when the delete of the commitment raises: its
    exception propagates in place of the original one, and the commitment
    stays. *)
Lemma C2_counterexample :
  let s := Fake.failing [("create_reservation", Fake.unavailable);
                         ("delete_capacity_commitment", Fake.deadline_exceeded)]
                        Fake.empty in
  let run := purchase_http Fake.runtime "NAME" (Fake.purchase_request (PyInt 50))
               Fake.client (PyStr "p1") (PyStr "EU") 50 (Fake.world s) in
  map ev_outcome (firstn 2 (journal (snd run)))
  = [Returned ["projects/p1/locations/EU/capacityCommitments/0"];
     Raised Fake.unavailable] /\
  fst run = inl Fake.deadline_exceeded /\
  fst run <> inl Fake.unavailable /\
  map CapacityCommitment.name (Fake.commitments (remote (snd run)))
  = ["projects/p1/locations/EU/capacityCommitments/0"].
Proof.
  cbv zeta. repeat split; try reflexivity. vm_compute. discriminate.
Qed.

(** C3.  The reservation name is not generated inside the transaction: it is
    the default of a parameter, computed once when the module is imported.
    Whatever requests a process serves, every reservation it asks for has
    the name generated at import; two purchases in one process use the same
    name, and on a service that keeps names unique the second one fails. *)
Theorem C3_reservation_name_bound_at_import :
  (forall (rt : PyRuntime) (R : Type) (client : ReservationServiceClient R)
          (today : datetime) (g : Rng) (requests : list Request) (r : R),
      Forall (fun id => id = fst (get_reservation_name today g))
             (reservation_ids
                (journal (snd (process rt client today g requests r)))))
  /\
  (let run := process Fake.runtime Fake.client Fake.today Fake.rng
                [Fake.purchase_request (PyInt 50);
                 Fake.purchase_request (PyInt 50)] Fake.empty in
   reservation_ids (journal (snd run))
   = ["reservation-20210307-09054205-dkryfmta";
      "reservation-20210307-09054205-dkryfmta"]
   /\ map status (fst run) = [200; 500]).
Proof.
  split.
  - intros rt R client today g requests r. unfold process.
    set (name := fst (get_reservation_name today g)).
    assert (H : Forall (disciplined name)
                  (journal (snd (serve_all rt client name requests
                                   {| remote := r; journal := []; stdout := [] |})))).
    { apply serve_all_disciplined. constructor. }
    revert H. generalize (journal (snd (serve_all rt client name requests
                                   {| remote := r; journal := []; stdout := [] |}))).
    intros evs H. induction H as [|ev evs Hev _ IH]; simpl.
    + constructor.
    + apply Forall_app. split; [| exact IH].
      unfold disciplined in Hev. destruct (ev_request ev); try constructor.
      * apply Hev.
      * constructor.
  - vm_compute. split; reflexivity.
Qed.




(** C5.  A request with a [project_id] and an operation that is none of the
    three known ones is answered with status 400, but the severity of the
    message is [info], not [error]; the service is not called. *)
Theorem C5_unsupported_operation_has_severity_info (rt : PyRuntime) (R : Type)
    (client : ReservationServiceClient R) (default_name : string)
    (project_id : pyvalue) (rest : pydict) (w : World R) :
  let response :=
    {| body := PyDict [("message", PyStr "Unsupported operation 'resize'");
                       ("severity", PyStr "info")];
       status := 400 |} in
  serve rt client default_name
        (json_request (("project_id", project_id)
                       :: ("operation", PyStr "resize") :: rest)) w
  = (response, w)
  /\ status response = 400
  /\ severity response = Some (PyStr "info")
  /\ severity response <> Some (PyStr "error").
Proof.
  cbv zeta. split; [| split; [| split]].
  - eapply eq_trans.
    + apply unsupported_operation_response
        with (project_id := project_id) (operation := PyStr "resize");
        reflexivity.
    + reflexivity.
  - reflexivity.
  - reflexivity.
  - discriminate.
Qed.



(** C8.  A JSON object without [project_id], whatever else it holds, is
    answered with status 400 and a message of severity [error]; the journal
    and the service are untouched, so the check comes before any call. *)
Theorem C8_missing_project_id (rt : PyRuntime) (R : Type)
    (client : ReservationServiceClient R) (default_name : string)
    (d : pydict) (w : World R) :
  dict_in "project_id" d = false ->
  exists response w',
    main_http rt client default_name (json_request d) w = (inr response, w') /\
    serve rt client default_name (json_request d) w = (response, w') /\
    status response = 400 /\
    severity response = Some (PyStr "error") /\
    journal w' = journal w /\
    remote w' = remote w.
Proof.
  intros H. apply dict_in_false in H.
  exists project_id_required. eexists.
  unfold serve. rewrite main_http_object, H.
  repeat split; reflexivity.
Qed.

(** A purchase request with everything but the [project_id]. *)
Lemma C8_witness :
  exists response w',
    serve Fake.runtime Fake.client "NAME"
      (json_request [("operation", PyStr "purchase"); ("slots", PyInt 50);
                     ("location", PyStr "US")])
      (Fake.world Fake.populated) = (response, w') /\
    status response = 400 /\
    severity response = Some (PyStr "error") /\
    journal w' = [].
Proof.
  destruct (@C8_missing_project_id Fake.runtime Fake.state Fake.client "NAME"
              [("operation", PyStr "purchase"); ("slots", PyInt 50);
               ("location", PyStr "US")]
              (Fake.world Fake.populated) eq_refl)
    as [response [w' [_ [Hs [H400 [Hsev [Hj _]]]]]]].
  exists response, w'. repeat split; assumption.
Defined.

(** C9, as amended.  For a request with a [project_id] and the operation
    [purchase], the handler applies [int()] to the [slots] field and nothing
    else.  When [int()] raises, the exception leaves the handler before any
    call and the answer is the 500 of [handle_exception].  When it returns
    [n], the purchase runs with [n] slots: if [n] fits a signed 64-bit field
    the commitment is asked for with [slot_count = n]; if not, building the
    commitment message raises, again a 500 before any call.  The string
    ["50"] converts to 50, which fits. *)
Theorem C9_slots_only_coerced (rt : PyRuntime) (R : Type)
    (client : ReservationServiceClient R) (default_name : string)
    (d : pydict) (project_id : pyvalue) (w : World R) :
  dict_get "project_id" d = Some project_id ->
  dict_get "operation" d = Some (PyStr "purchase") ->
  let slots := dict_get_default "slots" (PyInt 100) d in
  let location := dict_get_default "location" (PyStr "EU") d in
  (forall e, py_int rt slots = inl e ->
     main_http rt client default_name (json_request d) w = (inl e, w) /\
     serve rt client default_name (json_request d) w = (handle_exception e, w) /\
     status (handle_exception e) = 500 /\
     severity (handle_exception e) = Some (PyStr "error"))
  /\ (forall n, py_int rt slots = inr n ->
        main_http rt client default_name (json_request d) w
        = purchase_http rt default_name (json_request d) client project_id
            location n w)
  /\ (forall n, py_int rt slots = inr n -> in_int64 n = true ->
        exists out rest,
          journal (snd (main_http rt client default_name (json_request d) w))
          = app (journal w)
                (Event (CreateCapacityCommitmentRequest
                          (common_location_path rt project_id location)
                          (commitment_config n)) None out :: rest))
  /\ (forall n, py_int rt slots = inr n -> in_int64 n = false ->
        let e := ValueError rt "int64 field: value out of range" (PyInt n) in
        exists w',
          main_http rt client default_name (json_request d) w = (inl e, w') /\
          serve rt client default_name (json_request d) w
          = (handle_exception e, w') /\
          status (handle_exception e) = 500 /\
          severity (handle_exception e) = Some (PyStr "error") /\
          journal w' = journal w /\
          remote w' = remote w)
  /\ py_int rt (PyStr "50") = inr 50
  /\ in_int64 50 = true.
Proof.
  intros Hp Ho. cbv zeta.
  assert (Hmain : forall n,
    py_int rt (dict_get_default "slots" (PyInt 100) d) = inr n ->
    main_http rt client default_name (json_request d) w
    = purchase_http rt default_name (json_request d) client project_id
        (dict_get_default "location" (PyStr "EU") d) n w).
  { intros n Hn. rewrite main_http_object, Hp, Ho. cbv zeta.
    cbn [str_eq String.eqb Ascii.eqb Bool.eqb]. rewrite Hn. reflexivity. }
  split; [| split; [| split; [| split; [| split]]]].
  - intros e He. unfold serve. rewrite main_http_object, Hp, Ho. cbv zeta.
    cbn [str_eq String.eqb Ascii.eqb Bool.eqb]. rewrite He.
    repeat split; unfold handle_exception; destruct (exn_message e); reflexivity.
  - exact Hmain.
  - intros n Hn Hr. rewrite (Hmain n Hn).
    apply purchase_http_first_call. exact Hr.
  - intros n Hn Hr. unfold serve. rewrite (Hmain n Hn).
    rewrite purchase_http_out_of_range by exact Hr.
    eexists. repeat split.
  - cbn. unfold int_of_str. cbn.
    pose proof (rt_max_str_digits_valid rt) as Hv.
    destruct (rt_max_str_digits rt) as [|[|limit]]; try reflexivity.
    discriminate Hv.
  - reflexivity.
Qed.

(** A purchase whose [slots] is the string ["abc"]: status 500, no call. *)
Lemma C9_witness :
  serve Fake.runtime Fake.client "NAME" (Fake.purchase_request (PyStr "abc"))
    (Fake.world Fake.empty)
  = ({| body := PyDict [("message", PyStr "int: invalid literal");
                        ("severity", PyStr "error")];
        status := 500 |},
     Fake.world Fake.empty).
Proof.
  destruct (@C9_slots_only_coerced Fake.runtime Fake.state Fake.client "NAME"
              [("project_id", PyStr "p1"); ("operation", PyStr "purchase");
               ("slots", PyStr "abc")]
              (PyStr "p1") (Fake.world Fake.empty) eq_refl eq_refl)
    as [Hfail _].
  destruct (Hfail _ eq_refl) as [_ [Hserve _]].
  exact Hserve.
Defined.

(** C9 as stated fails on a request without [project_id]: the operation is
    [purchase] and [slots] does not convert, yet the answer is the 400 of
    the missing [project_id], and no exception is raised.  And slots that do
    convert are not all accepted: 2^63 is refused when the commitment
    message is built, with a 500 and no call. *)
Lemma C9_counterexample :
  let d := [("operation", PyStr "purchase"); ("slots", PyStr "abc")] in
  let big := [("project_id", PyStr "p1"); ("operation", PyStr "purchase");
              ("slots", PyInt (2 ^ 63))] in
  dict_get "operation" d = Some (PyStr "purchase") /\
  (exists e, py_int Fake.runtime (dict_get_default "slots" (PyInt 100) d) = inl e) /\
  (exists response w',
     main_http Fake.runtime Fake.client "NAME" (json_request d)
       (Fake.world Fake.empty) = (inr response, w') /\
     serve Fake.runtime Fake.client "NAME" (json_request d)
       (Fake.world Fake.empty) = (response, w') /\
     status response = 400 /\
     status response <> 500) /\
  py_int Fake.runtime (dict_get_default "slots" (PyInt 100) big) = inr (2 ^ 63) /\
  (exists response w',
     serve Fake.runtime Fake.client "NAME" (json_request big)
       (Fake.world Fake.empty) = (response, w') /\
     status response = 500 /\
     journal w' = []).
Proof.
  cbv zeta. split; [reflexivity | split; [| split; [| split]]].
  - eexists. reflexivity.
  - eexists. eexists. split; [reflexivity |]. split; [reflexivity |].
    split; [reflexivity | discriminate].
  - reflexivity.
  - eexists. eexists. split; [vm_compute; reflexivity |].
    split; reflexivity.
Qed.

(** C10.  Two JSON objects that agree on every field but [slots], with the
    operation [report], [cleanup] or none: on the same service in the same
    state the handler returns the same result and leaves the same world,
    journal of calls included. *)
Theorem C10_slots_ignored_outside_purchase (rt : PyRuntime) (R : Type)
    (client : ReservationServiceClient R) (default_name : string)
    (d1 d2 : pydict) (w : World R) :
  differ_only_in_slots d1 d2 ->
  dict_get "operation" d1 = None
  \/ dict_get "operation" d1 = Some (PyStr "report")
  \/ dict_get "operation" d1 = Some (PyStr "cleanup") ->
  main_http rt client default_name (json_request d1) w
  = main_http rt client default_name (json_request d2) w
  /\ serve rt client default_name (json_request d1) w
     = serve rt client default_name (json_request d2) w.
Proof.
  intros Hd Hop.
  assert (E : main_http rt client default_name (json_request d1) w
              = main_http rt client default_name (json_request d2) w).
  { apply slots_unused; [exact Hd |].
    intros op Ho. destruct Hop as [H | [H | H]]; rewrite H in Ho;
      try discriminate; inversion Ho; reflexivity. }
  split; [exact E | unfold serve; rewrite E; reflexivity].
Qed.

(** Two cleanup requests, one with 5 slots and one with slots that are not
    a number. *)
Lemma C10_witness :
  serve Fake.runtime Fake.client "NAME"
    (json_request [("project_id", PyStr "p1"); ("operation", PyStr "cleanup");
                   ("slots", PyInt 5)])
    (Fake.world Fake.populated)
  = serve Fake.runtime Fake.client "NAME"
      (json_request [("project_id", PyStr "p1"); ("operation", PyStr "cleanup");
                     ("slots", PyStr "many")])
      (Fake.world Fake.populated).
Proof.
  refine (proj2 (@C10_slots_ignored_outside_purchase Fake.runtime Fake.state
                   Fake.client "NAME" _ _ (Fake.world Fake.populated) _ _)).
  - intros k Hk. cbn [dict_get].
    destruct (String.eqb k "project_id"); [reflexivity |].
    destruct (String.eqb k "operation"); [reflexivity |].
    destruct (String.eqb_spec k "slots"); [contradiction | reflexivity].
  - right. right. reflexivity.
Defined.

(** * Further properties *)

(** ** The dispatcher *)

Section MoreDispatcher.

Variable rt : PyRuntime.
Variable R : Type.
Variable client : ReservationServiceClient R.
Variable default_name : string.

Lemma report_http_returns (request : Request) (project_id location : pyvalue)
    (w w' : World R) (response : Response) :
  report_http rt request client project_id location w = (inr response, w') ->
  status response = 200 /\ severity response = Some (PyStr "info").
Proof.
  unfold report_http, bind, print, ret.
  destruct (report rt client project_id location w) as [[e|log] w1];
    intros H; inversion H; subst. split; reflexivity.
Qed.

Lemma cleanup_http_returns (request : Request) (project_id location : pyvalue)
    (w w' : World R) (response : Response) :
  cleanup_http rt request client project_id location w = (inr response, w') ->
  status response = 200 /\ severity response = Some (PyStr "info").
Proof.
  unfold cleanup_http, bind, print, ret.
  destruct (cleanup rt client project_id location w) as [[e|log] w1];
    intros H; inversion H; subst. split; reflexivity.
Qed.

Lemma purchase_http_returns (request : Request) (project_id location : pyvalue)
    (slots : Z) (w w' : World R) (response : Response) :
  purchase_http rt default_name request client project_id location slots w
  = (inr response, w') ->
  status response = 200 /\ severity response = Some (PyStr "info").
Proof.
  unfold purchase_http, try_except, bind, print, ret, raise.
  destruct (purchase_commitment rt client project_id location slots "FLEX" w)
    as [[e|c] w1]; [discriminate |].
  destruct (create_reservation_and_assignment rt client project_id location slots
              default_name _) as [[e|ra] w2].
  - destruct (delete_commitment client (CapacityCommitment.name c) _)
      as [[e'|line] w3]; discriminate.
  - intros H; inversion H; subst. split; reflexivity.
Qed.

(** What [main_http] returns: a 200 with severity [info], or a 400 that it
    produced without calling the service. *)
Lemma main_http_returns (request : Request) (w w' : World R)
    (response : Response) :
  main_http rt client default_name request w = (inr response, w') ->
  (status response = 200 /\ severity response = Some (PyStr "info"))
  \/ (status response = 400 /\ journal w' = journal w /\ remote w' = remote w).
Proof.
  destruct request as [[v|]].
  - destruct v as [ |b|z|f|s|l|d].
    + intros H; inversion H; subst. right. repeat split.
    + discriminate.
    + discriminate.
    + discriminate.
    + unfold main_http, get_json. cbn [json py_contains]. unfold bind, lift, ret, raise.
      destruct (str_contains "project_id" s); cbn [negb].
      * discriminate.
      * intros H; inversion H; subst. right. repeat split.
    + unfold main_http, get_json. cbn [json py_contains]. unfold bind, lift, ret, raise.
      destruct (existsb (str_eq "project_id") l); cbn [negb].
      * discriminate.
      * intros H; inversion H; subst. right. repeat split.
    + change {| json := Some (PyDict d) |} with (json_request d).
      rewrite main_http_object.
      destruct (dict_get "project_id" d) as [project_id|].
      * cbv zeta. destruct (dict_get "operation" d) as [operation|].
        -- destruct (str_eq "report" operation);
             [intros H; left; eapply report_http_returns; exact H |].
           destruct (str_eq "cleanup" operation);
             [intros H; left; eapply cleanup_http_returns; exact H |].
           destruct (str_eq "purchase" operation).
           ++ destruct (py_int rt _) as [e|n]; [discriminate |].
              intros H; left; eapply purchase_http_returns; exact H.
           ++ intros H; inversion H; subst. right. repeat split.
        -- intros H; inversion H; subst. left. split; reflexivity.
      * intros H; inversion H; subst. right. repeat split.
  - intros H; inversion H; subst. right. repeat split.
Qed.

End MoreDispatcher.

(** Whatever the request and the service, the answer is a 200 with severity
    [info], a 400 produced before any call to the service, or a 500 with
    severity [error]. *)
Theorem serve_answers (rt : PyRuntime) (R : Type)
    (client : ReservationServiceClient R) (default_name : string)
    (request : Request) (w : World R) :
  let response := fst (serve rt client default_name request w) in
  let w' := snd (serve rt client default_name request w) in
  (status response = 200 /\ severity response = Some (PyStr "info"))
  \/ (status response = 400 /\ journal w' = journal w /\ remote w' = remote w)
  \/ (status response = 500 /\ severity response = Some (PyStr "error")).
Proof.
  cbv zeta. unfold serve.
  destruct (main_http rt client default_name request w) as [[e|response] w'] eqn:E.
  - right. right. unfold handle_exception.
    destruct (exn_message e); split; reflexivity.
  - apply main_http_returns in E. cbn [fst snd]. tauto.
Qed.

(** A body that is not JSON, or is the JSON [null], is answered with the 400
    of the missing JSON request, and the service is not called. *)
Theorem body_required (rt : PyRuntime) (R : Type)
    (client : ReservationServiceClient R) (default_name : string)
    (request : Request) (w : World R) :
  get_json request = PyNone ->
  serve rt client default_name request w
  = (json_required,
     {| remote := remote w; journal := journal w;
        stdout := append (stdout w) "Error: json request is required" |})
  /\ status json_required = 400
  /\ severity json_required = Some (PyStr "error").
Proof.
  intros H. unfold serve, main_http. rewrite H. repeat split.
Qed.

Lemma body_required_witness :
  serve Fake.runtime Fake.client "NAME" {| json := None |}
    (Fake.world Fake.populated)
  = (json_required,
     {| remote := Fake.populated; journal := [];
        stdout := ["Error: json request is required"] |})
  /\ serve Fake.runtime Fake.client "NAME" {| json := Some PyNone |}
       (Fake.world Fake.populated)
     = serve Fake.runtime Fake.client "NAME" {| json := None |}
         (Fake.world Fake.populated).
Proof.
  split.
  - exact (proj1 (@body_required Fake.runtime Fake.state Fake.client "NAME"
                    {| json := None |} (Fake.world Fake.populated) eq_refl)).
  - reflexivity.
Defined.

(** A JSON body that is not an object never reaches the service.  A number
    or a boolean makes the membership test raise, hence a 500; a string or a
    list is answered 400 unless it holds ["project_id"] (as a substring, as
    an element), in which case indexing it raises, hence a 500. *)
Theorem body_not_an_object (rt : PyRuntime) (R : Type)
    (client : ReservationServiceClient R) (default_name : string)
    (v : pyvalue) (w : World R) :
  is_object v = false ->
  let response := fst (serve rt client default_name {| json := Some v |} w) in
  let w' := snd (serve rt client default_name {| json := Some v |} w) in
  journal w' = journal w /\
  remote w' = remote w /\
  status response =
    match v with
    | PyNone => 400
    | PyStr s => if str_contains "project_id" s then 500 else 400
    | PyList l => if existsb (str_eq "project_id") l then 500 else 400
    | _ => 500
    end.
Proof.
  intros Hv. cbv zeta. unfold serve, main_http, get_json. cbn [json].
  destruct v as [ |b|z|f|s|l|d]; try discriminate Hv;
    cbn [py_contains]; unfold bind, lift, ret, raise, print.
  - repeat split.
  - cbn [fst snd]. unfold handle_exception. cbn. repeat split.
  - cbn [fst snd]. unfold handle_exception. cbn. repeat split.
  - cbn [fst snd]. unfold handle_exception. cbn. repeat split.
  - destruct (str_contains "project_id" s); cbn; repeat split.
  - destruct (existsb (str_eq "project_id") l); cbn; repeat split.
Qed.

Lemma body_not_an_object_witness :
  status (fst (serve Fake.runtime Fake.client "NAME"
                 {| json := Some (PyList [PyStr "project_id"]) |}
                 (Fake.world Fake.populated))) = 500
  /\ status (fst (serve Fake.runtime Fake.client "NAME"
                    {| json := Some (PyStr "cleanup") |}
                    (Fake.world Fake.populated))) = 400.
Proof.
  split.
  - exact (proj2 (proj2 (@body_not_an_object Fake.runtime Fake.state Fake.client
                           "NAME" (PyList [PyStr "project_id"])
                           (Fake.world Fake.populated) eq_refl))).
  - exact (proj2 (proj2 (@body_not_an_object Fake.runtime Fake.state Fake.client
                           "NAME" (PyStr "cleanup")
                           (Fake.world Fake.populated) eq_refl))).
Defined.

(** A request with a [project_id] and no [operation] is answered 200 with
    the list of the operations, severity [info], whatever its other fields;
    nothing is printed and the service is not called. *)
Theorem operation_absent (rt : PyRuntime) (R : Type)
    (client : ReservationServiceClient R) (default_name : string)
    (d : pydict) (project_id : pyvalue) (w : World R) :
  dict_get "project_id" d = Some project_id ->
  dict_get "operation" d = None ->
  serve rt client default_name (json_request d) w = (operations_available, w)
  /\ status operations_available = 200
  /\ severity operations_available = Some (PyStr "info").
Proof.
  intros Hp Ho. unfold serve. rewrite main_http_object, Hp, Ho. repeat split.
Qed.

Lemma operation_absent_witness :
  serve Fake.runtime Fake.client "NAME"
    (json_request [("project_id", PyStr "p1"); ("slots", PyStr "abc")])
    (Fake.world Fake.populated)
  = (operations_available, Fake.world Fake.populated).
Proof.
  exact (proj1 (@operation_absent Fake.runtime Fake.state Fake.client "NAME"
                  [("project_id", PyStr "p1"); ("slots", PyStr "abc")]
                  (PyStr "p1") (Fake.world Fake.populated) eq_refl eq_refl)).
Defined.

(** ** The provisioning transaction *)

Ltac journal_eq :=
  cbn [journal snd fst remote]; unfold append; rewrite <- ?app_assoc; cbn [app];
  reflexivity.

Ltac name_configs rt project_id slots :=
  change {| CapacityCommitment.name := EmptyString;
            CapacityCommitment.plan := "FLEX";
            CapacityCommitment.slot_count := slots |}
    with (commitment_config slots);
  change {| Reservation.name := EmptyString; Reservation.slot_capacity := slots;
            Reservation.ignore_idle_slots := false |}
    with (reservation_config slots);
  change {| Assignment.name := EmptyString; Assignment.job_type := "QUERY";
            Assignment.assignee := "projects/" ++ py_str rt project_id |}
    with (assignment_config rt project_id).

(** A purchase of slots that fit a signed 64-bit field, whose three creates
    return: exactly these three calls are
    made, in this order and without a retry argument; the commitment has the
    plan FLEX and the slots asked for, the reservation the same slots and
    does not ignore idle slots, the assignment is of type QUERY for the
    project and goes under the reservation the service returned.  The answer
    is a 200 naming the three resources, and nothing is deleted. *)
Theorem purchase_succeeds (rt : PyRuntime) (R : Type)
    (client : ReservationServiceClient R) (default_name : string)
    (request : Request) (project_id location : pyvalue) (slots : Z)
    (w : World R) (c : CapacityCommitment.t) (rv : Reservation.t)
    (a : Assignment.t) (r1 r2 r3 : R) :
  let parent := common_location_path rt project_id location in
  in_int64 slots = true ->
  Client.create_capacity_commitment client parent (commitment_config slots) None
    (remote w) = (inr c, r1) ->
  Client.create_reservation client parent default_name (reservation_config slots)
    None r1 = (inr rv, r2) ->
  Client.create_assignment client (Reservation.name rv)
    (assignment_config rt project_id) None r2 = (inr a, r3) ->
  exists w' evs,
    purchase_http rt default_name request client project_id location slots w
    = (inr (purchased rt project_id location slots c rv a), w') /\
    remote w' = r3 /\
    journal w' = app (journal w) evs /\
    evs = [Event (CreateCapacityCommitmentRequest parent (commitment_config slots))
                 None (Returned [CapacityCommitment.name c]);
           Event (CreateReservationRequest parent default_name
                    (reservation_config slots))
                 None (Returned [Reservation.name rv]);
           Event (CreateAssignmentRequest (Reservation.name rv)
                    (assignment_config rt project_id))
                 None (Returned [Assignment.name a])] /\
    count_calls is_delete evs = 0%nat /\
    leftover evs [] = [(KCommitment, CapacityCommitment.name c);
                       (KReservation, Reservation.name rv);
                       (KAssignment, Assignment.name a)].
Proof.
  cbv zeta. intros Hs H1 H2 H3.
  unfold purchase_http, purchase_commitment, create_reservation_and_assignment,
    create_assignment, try_except, lift, int64_field, bind, print, call, ret.
  rewrite ?Hs. cbn [remote journal stdout]. name_configs rt project_id slots.
  rewrite H1. cbn [remote journal stdout]. rewrite H2.
  cbn [remote journal stdout]. rewrite H3.
  eexists. eexists. split; [reflexivity |]. split; [reflexivity |].
  split; [journal_eq |]. repeat split.
Qed.

Lemma purchase_succeeds_witness :
  exists w',
    purchase_http Fake.runtime "NAME" (Fake.purchase_request (PyInt 50))
      Fake.client (PyStr "p1") (PyStr "EU") 50 (Fake.world Fake.empty)
    = (inr {| body :=
                PyDict
                  [("message",
                    PyStr "Successfully purchased commitment for 50 slots in project p1 located in EU");
                   ("commitment",
                    PyStr "projects/p1/locations/EU/capacityCommitments/0");
                   ("reservation",
                    PyStr "projects/p1/locations/EU/reservations/NAME");
                   ("assignment",
                    PyStr "projects/p1/locations/EU/reservations/NAME/assignments/1");
                   ("severity", PyStr "info")];
              status := 200 |}, w')
    /\ List.length (journal w') = 3%nat.
Proof.
  destruct (@purchase_succeeds Fake.runtime Fake.state Fake.client "NAME"
              (Fake.purchase_request (PyInt 50)) (PyStr "p1") (PyStr "EU") 50
              (Fake.world Fake.empty) _ _ _ _ _ _ eq_refl eq_refl eq_refl eq_refl)
    as [w' [evs [Hrun [_ [Hj [He _]]]]]].
  exists w'. split; [exact Hrun |]. rewrite Hj, He. reflexivity.
Defined.

(** A purchase, of slots that fit a signed 64-bit field, whose commitment
    cannot be bought: the exception of the create is raised unchanged, this is the only call made, and no
    compensation is attempted. *)
Theorem purchase_commitment_fails (rt : PyRuntime) (R : Type)
    (client : ReservationServiceClient R) (default_name : string)
    (request : Request) (project_id location : pyvalue) (slots : Z)
    (w : World R) (e : exn) (r1 : R) :
  let parent := common_location_path rt project_id location in
  in_int64 slots = true ->
  Client.create_capacity_commitment client parent (commitment_config slots) None
    (remote w) = (inl e, r1) ->
  exists w',
    purchase_http rt default_name request client project_id location slots w
    = (inl e, w') /\
    remote w' = r1 /\
    journal w' =
      app (journal w)
          [Event (CreateCapacityCommitmentRequest parent (commitment_config slots))
                 None (Raised e)].
Proof.
  cbv zeta. intros Hs H1.
  unfold purchase_http, purchase_commitment, try_except, lift, int64_field,
    bind, print, call, ret.
  rewrite ?Hs. cbn [remote journal stdout]. name_configs rt project_id slots.
  rewrite H1. eexists. split; [reflexivity |]. split; [reflexivity | journal_eq].
Qed.

Lemma purchase_commitment_fails_witness :
  let s := Fake.failing [("create_capacity_commitment", Fake.unavailable)]
                        Fake.populated in
  exists w',
    purchase_http Fake.runtime "NAME" (Fake.purchase_request (PyInt 50))
      Fake.client (PyStr "p1") (PyStr "EU") 50 (Fake.world s)
    = (inl Fake.unavailable, w')
    /\ remote w' = s
    /\ List.length (journal w') = 1%nat.
Proof.
  cbv zeta.
  destruct (@purchase_commitment_fails Fake.runtime Fake.state Fake.client "NAME"
              (Fake.purchase_request (PyInt 50)) (PyStr "p1") (PyStr "EU") 50
              (Fake.world (Fake.failing
                             [("create_capacity_commitment", Fake.unavailable)]
                             Fake.populated))
              Fake.unavailable _ eq_refl eq_refl)
    as [w' [Hrun [Hr Hj]]].
  exists w'. split; [exact Hrun |]. split; [exact Hr |]. rewrite Hj. reflexivity.
Defined.

(** A purchase request that names no location and no slots buys 100 slots
    in the location EU; one whose location is the JSON [null] is not given
    the default: its scope is the location [None]. *)
Theorem purchase_defaults (rt : PyRuntime) (R : Type)
    (client : ReservationServiceClient R) (default_name : string)
    (d : pydict) (project_id : pyvalue) (w : World R) :
  dict_get "project_id" d = Some project_id ->
  dict_get "operation" d = Some (PyStr "purchase") ->
  dict_get "slots" d = None ->
  let first_call (location : string) (evs : list event) :=
    exists out rest,
      evs = app (journal w)
                (Event (CreateCapacityCommitmentRequest
                          ("projects/" ++ py_str rt project_id ++ "/locations/"
                           ++ location)
                          {| CapacityCommitment.name := EmptyString;
                             CapacityCommitment.plan := "FLEX";
                             CapacityCommitment.slot_count := 100 |})
                       None out :: rest) in
  let evs := journal (snd (main_http rt client default_name (json_request d) w)) in
  (dict_get "location" d = None -> first_call "EU" evs)
  /\ (dict_get "location" d = Some PyNone -> first_call "None" evs).
Proof.
  intros Hp Ho Hs. cbv zeta.
  rewrite main_http_object, Hp, Ho. cbv zeta.
  cbn [str_eq String.eqb Ascii.eqb Bool.eqb].
  unfold dict_get_default. rewrite Hs. cbn [py_int].
  split; intros Hl; rewrite Hl.
  - apply (purchase_http_first_call rt client default_name (json_request d)
             project_id (PyStr "EU") 100 w eq_refl).
  - apply (purchase_http_first_call rt client default_name (json_request d)
             project_id PyNone 100 w eq_refl).
Qed.

Lemma purchase_defaults_witness :
  exists out rest,
    journal (snd (main_http Fake.runtime Fake.client "NAME"
                    (json_request [("project_id", PyStr "p1");
                                   ("operation", PyStr "purchase")])
                    (Fake.world Fake.empty)))
    = Event (CreateCapacityCommitmentRequest "projects/p1/locations/EU"
               {| CapacityCommitment.name := EmptyString;
                  CapacityCommitment.plan := "FLEX";
                  CapacityCommitment.slot_count := 100 |})
            None out :: rest.
Proof.
  exact (proj1 (@purchase_defaults Fake.runtime Fake.state Fake.client "NAME"
                  [("project_id", PyStr "p1"); ("operation", PyStr "purchase")]
                  (PyStr "p1") (Fake.world Fake.empty) eq_refl eq_refl eq_refl)
               eq_refl).
Defined.

(** Whatever the service answers, a purchase makes at most five calls, and
    every delete it makes has for target a resource that one of its own
    creates returned earlier in the same run: it never deletes what it did
    not create. *)
Theorem purchase_deletes_only_its_own (rt : PyRuntime) (R : Type)
    (client : ReservationServiceClient R) (default_name : string)
    (request : Request) (project_id location : pyvalue) (slots : Z)
    (w : World R) :
  exists evs,
    journal (snd (purchase_http rt default_name request client project_id
                    location slots w))
    = app (journal w) evs /\
    deletes_own evs [] = true /\
    (List.length evs <= 5)%nat.
Proof.
  unfold purchase_http, purchase_commitment, create_reservation_and_assignment,
    create_assignment, get_message, delete_reservation, delete_commitment,
    try_except, lift, int64_field, bind, print, call, ret, raise.
  destruct (in_int64 slots); cbn [remote journal stdout].
  2: { exists []. cbn [journal snd]. rewrite app_nil_r.
       split; [reflexivity |]. split; [reflexivity | simpl; lia]. }
  repeat
    (match goal with
     | |- context [Client.create_capacity_commitment ?c ?p ?x ?y ?r] =>
         destruct (Client.create_capacity_commitment c p x y r) as [[?|?] ?]
     | |- context [Client.create_reservation ?c ?p ?n ?x ?y ?r] =>
         destruct (Client.create_reservation c p n x y r) as [[?|?] ?]
     | |- context [Client.create_assignment ?c ?p ?x ?y ?r] =>
         destruct (Client.create_assignment c p x y r) as [[?|?] ?]
     | |- context [Client.delete_reservation ?c ?n ?y ?r] =>
         destruct (Client.delete_reservation c n y r) as [[?|?] ?]
     | |- context [Client.delete_capacity_commitment ?c ?n ?y ?r] =>
         destruct (Client.delete_capacity_commitment c n y r) as [[?|?] ?]
     | |- context [match exn_message ?e with _ => _ end] =>
         destruct (exn_message e)
     end;
     cbn [remote journal stdout]);
    (eexists; split; [journal_eq |]; split;
     [simpl; rewrite ?same_resource_refl; unfold same_resource; simpl;
      rewrite ?String.eqb_refl; reflexivity
     | simpl; lia]).
Qed.

(** The kinds of calls an operation makes, whatever the service answers:
    [cleanup] lists and deletes and never creates; a purchase creates and
    rolls back, and never lists nor deletes an assignment. *)
Theorem operations_keep_to_their_calls (rt : PyRuntime) (R : Type)
    (client : ReservationServiceClient R) (default_name : string)
    (request : Request) (project_id location : pyvalue) (slots : Z) :
  emits (fun ev => is_create (ev_request ev) = false)
        (cleanup rt client project_id location)
  /\ emits (fun ev => is_listing (ev_request ev) = false
                      /\ is_delete_assignment (ev_request ev) = false)
           (purchase_http rt default_name request client project_id location
              slots).
Proof.
  split.
  - unfold cleanup, get_reservations, get_assignments, get_commitments,
      delete_assignment, delete_reservation, delete_commitment.
    emits_tac.
  - unfold purchase_http, purchase_commitment, create_reservation_and_assignment,
      create_assignment, get_message, delete_reservation, delete_commitment.
    emits_tac.
Qed.

Lemma deletes_own_refuses_foreign (name : string) (retry : option Retry) :
  deletes_own [Event (DeleteReservationRequest name) retry (Returned [])] []
  = false.
Proof. reflexivity. Qed.

(** ** Listings and teardowns stop at the first failure *)

Section FailFast.

Context {R : Type}.

Lemma fails_fast_ret {A} (a : A) : fails_fast (ret a : M R A).
Proof. intros w. exists []. simpl. rewrite app_nil_r. auto. Qed.

Lemma fails_fast_print (line : string) : fails_fast (print line : M R unit).
Proof. intros w. exists []. simpl. rewrite app_nil_r. auto. Qed.

Lemma fails_fast_call {A} (req : request) (retry : option Retry)
    (names : A -> list string) (method : R -> (exn + A) * R) :
  fails_fast (call req retry names method).
Proof.
  intros w. unfold call. destruct (method (remote w)) as [[e|a] r'];
    eexists [_]; (split; [reflexivity |]); simpl.
  - exists [], req, retry. auto.
  - repeat constructor.
Qed.

Lemma fails_fast_bind {A B} (m : M R A) (k : A -> M R B) :
  fails_fast m -> (forall a, fails_fast (k a)) -> fails_fast (bind m k).
Proof.
  intros Hm Hk w. unfold bind.
  destruct (Hm w) as [evs1 [E1 F1]].
  destruct (m w) as [[e|a] w1]; cbn [fst snd] in *.
  - exists evs1. auto.
  - destruct (Hk a w1) as [evs2 [E2 F2]].
    exists (app evs1 evs2). rewrite E2, E1, app_assoc. split; [reflexivity |].
    destruct (fst (k a w1)) as [e|b].
    + destruct F2 as [before [rq [retry [E F]]]].
      exists (app evs1 before), rq, retry. subst evs2.
      rewrite app_assoc. split; [reflexivity | apply Forall_app; auto].
    + apply Forall_app; auto.
Qed.

Lemma fails_fast_for_each {A S} (xs : list A) (body : A -> S -> M R S) :
  (forall x acc, fails_fast (body x acc)) ->
  forall acc, fails_fast (for_each xs body acc).
Proof.
  intros Hb. induction xs as [|x xs IH]; intros acc; simpl.
  - apply fails_fast_ret.
  - apply fails_fast_bind; auto.
Qed.

End FailFast.

Ltac fails_fast_tac :=
  repeat first
    [ apply fails_fast_ret
    | apply fails_fast_print
    | apply fails_fast_call
    | apply fails_fast_bind; [| intro]
    | apply fails_fast_for_each; intros ].

Lemma report_fails_fast (rt : PyRuntime) (R : Type)
    (client : ReservationServiceClient R) (project_id location : pyvalue) :
  fails_fast (report rt client project_id location).
Proof.
  unfold report, get_reservations, get_assignments, get_commitments.
  fails_fast_tac.
Qed.

Lemma cleanup_fails_fast (rt : PyRuntime) (R : Type)
    (client : ReservationServiceClient R) (project_id location : pyvalue) :
  fails_fast (cleanup rt client project_id location).
Proof.
  unfold cleanup, get_reservations, get_assignments, get_commitments,
    delete_assignment, delete_reservation, delete_commitment.
  fails_fast_tac.
Qed.

(** [report] and [cleanup] catch nothing and raise nothing of their own:
    either raises exactly when one of its calls to the service raises; that
    call is the last one made, every earlier call returned, and the
    exception raised is that of the call. *)
Theorem listing_and_teardown_fail_fast (rt : PyRuntime) (R : Type)
    (client : ReservationServiceClient R) (project_id location : pyvalue) :
  fails_fast (report rt client project_id location)
  /\ fails_fast (cleanup rt client project_id location).
Proof.
  split; [apply report_fails_fast | apply cleanup_fails_fast].
Qed.

(** ** The log of a teardown *)

Lemma delete_lines_of_teardown (ras : list (Reservation.t * list Assignment.t)) :
  flat_map delete_line (concat (map teardown_reservation ras))
  = concat (map teardown_lines ras).
Proof.
  induction ras as [|[r asg] ras IH]; cbn [map concat].
  - reflexivity.
  - rewrite flat_map_app, IH. f_equal.
    unfold teardown_reservation, teardown_lines. cbn [fst snd flat_map].
    cbn [delete_line listed_assignments ev_request ev_outcome app].
    rewrite flat_map_app. cbn. f_equal.
    induction asg as [|a asg IHa]; cbn; [reflexivity | f_equal; exact IHa].
Qed.

Lemma delete_lines_of_commitments (retry : Retry)
    (cs : list CapacityCommitment.t) :
  flat_map delete_line (map (deleted_commitment retry) cs)
  = map (fun c => "Deleted commitment " ++ CapacityCommitment.name c) cs.
Proof.
  induction cs as [|c cs IH]; cbn; [reflexivity | f_equal; exact IH].
Qed.

Lemma count_delete_lines (evs : list event) :
  List.length (flat_map delete_line evs)
  = count_calls is_delete (filter (fun ev => match ev_outcome ev with
                                             | Returned _ => true
                                             | Raised _ => false
                                             end) evs).
Proof.
  unfold count_calls. induction evs as [|[rq retry out] evs IH]; simpl.
  - reflexivity.
  - destruct out as [e|names]; simpl.
    + destruct rq; simpl; exact IH.
    + destruct rq; simpl; rewrite ?IH; reflexivity.
Qed.

(** The log that [cleanup] returns reads off the calls it made: one line per
    delete, in the order of the deletes, naming the kind and the name of
    what was deleted; a listing leaves no line. *)
Theorem cleanup_log_follows_deletes (rt : PyRuntime) (R : Type)
    (client : ReservationServiceClient R) (project_id location : pyvalue)
    (w w' : World R) (log : list string) :
  cleanup rt client project_id location w = (inr log, w') ->
  exists evs,
    journal w' = app (journal w) evs /\
    log = flat_map delete_line evs /\
    List.length log = count_calls is_delete evs.
Proof.
  intros Hrun.
  destruct (cleanup_fails_fast rt client project_id location w)
    as [evs' [E' F']]. rewrite Hrun in E', F'. cbn [fst snd] in *.
  apply cleanup_run in Hrun. destruct Hrun as [rs [ass [cs [Hlen [Hj Hlog]]]]].
  eexists. split; [exact Hj |].
  assert (Hl : log = flat_map delete_line
                       (cleanup_calls commitment_retry
                          (common_location_path rt project_id location)
                          rs ass cs)).
  { rewrite Hlog. unfold cleanup_log, cleanup_calls, teardown_reservations,
      teardown_commitments.
    change (?x :: ?l)%list with ([x] ++ l)%list. rewrite !flat_map_app.
    rewrite delete_lines_of_teardown. cbn [flat_map delete_line
      listed_reservations listed_commitments ev_request ev_outcome app].
    f_equal. symmetry. apply delete_lines_of_commitments. }
  split; [exact Hl |].
  rewrite Hl, count_delete_lines. f_equal.
  rewrite Hj in E'. apply app_inv_head in E'. rewrite E'.
  clear - F'. induction F' as [|ev evs Hev _ IH]; simpl; [reflexivity |].
  unfold returned in Hev. destruct (ev_outcome ev); [contradiction |].
  f_equal. exact IH.
Qed.

Lemma cleanup_log_follows_deletes_witness :
  fst (cleanup Fake.runtime Fake.client (PyStr "p1") (PyStr "EU")
         (Fake.world Fake.populated))
  = inr ["Deleted assignment projects/p1/locations/EU/reservations/r1/assignments/a1";
         "Deleted reservation projects/p1/locations/EU/reservations/r1";
         "Deleted commitment projects/p1/locations/EU/capacityCommitments/c1";
         "Deleted commitment projects/p1/locations/EU/capacityCommitments/c2"].
Proof.
  destruct (@cleanup_log_follows_deletes Fake.runtime Fake.state Fake.client
              (PyStr "p1") (PyStr "EU") (Fake.world Fake.populated)
              (snd (cleanup Fake.runtime Fake.client (PyStr "p1") (PyStr "EU")
                      (Fake.world Fake.populated)))
              _ eq_refl) as [evs [_ [Hlog _]]].
  reflexivity.
Defined.

(** On a scope whose listings come back empty, [report] and [cleanup] make
    their two listings and nothing else, print nothing, and return an empty
    log. *)
Theorem empty_scope (rt : PyRuntime) (R : Type)
    (client : ReservationServiceClient R) (project_id location : pyvalue)
    (w : World R) (r1 r2 : R) :
  let parent := common_location_path rt project_id location in
  Client.list_reservations client parent None (remote w) = (inr [], r1) ->
  Client.list_capacity_commitments client parent None r1 = (inr [], r2) ->
  let w' := {| remote := r2;
               journal := app (journal w)
                              [listed_reservations parent [];
                               listed_commitments parent []];
               stdout := stdout w |} in
  report rt client project_id location w = (inr [], w')
  /\ cleanup rt client project_id location w = (inr [], w').
Proof.
  cbv zeta. intros H1 H2.
  unfold report, cleanup, get_reservations, get_commitments, bind, call, ret.
  rewrite H1. cbn [for_each remote journal stdout]. unfold ret.
  cbn [remote journal stdout]. rewrite H2. cbn [for_each]. unfold ret.
  unfold append, listed_reservations, listed_commitments. cbn [map].
  rewrite <- !app_assoc. split; reflexivity.
Qed.

Lemma empty_scope_witness :
  fst (cleanup Fake.runtime Fake.client (PyStr "p1") (PyStr "EU")
         (Fake.world Fake.empty)) = inr []
  /\ List.length (journal (snd (cleanup Fake.runtime Fake.client (PyStr "p1")
                                  (PyStr "EU") (Fake.world Fake.empty)))) = 2%nat.
Proof.
  destruct (@empty_scope Fake.runtime Fake.state Fake.client (PyStr "p1")
              (PyStr "EU") (Fake.world Fake.empty) _ _ eq_refl eq_refl)
    as [_ Hc].
  rewrite Hc. split; reflexivity.
Defined.

(** ** Reservation names *)

Lemma string_forall_append (f : ascii -> bool) (s t : string) :
  string_forall f (s ++ t) = string_forall f s && string_forall f t.
Proof.
  induction s as [|c s IH]; simpl; [reflexivity |].
  rewrite IH, andb_assoc. reflexivity.
Qed.

Lemma string_forall_weaken (f g : ascii -> bool) (s : string) :
  (forall c, f c = true -> g c = true) ->
  string_forall f s = true -> string_forall g s = true.
Proof.
  intros Hfg. induction s as [|c s IH]; simpl; [reflexivity |].
  intros H. apply andb_true_iff in H. destruct H as [Hc Hs].
  rewrite (Hfg c Hc), (IH Hs). reflexivity.
Qed.

Lemma string_append_assoc (s t u : string) : (s ++ t) ++ u = s ++ t ++ u.
Proof.
  induction s as [|c s IH]; simpl; [reflexivity | rewrite IH; reflexivity].
Qed.

Lemma string_append_nil_r (s : string) : s ++ EmptyString = s.
Proof.
  induction s as [|c s IH]; simpl; [reflexivity | rewrite IH; reflexivity].
Qed.

Lemma append_inv_head (s a b : string) : s ++ a = s ++ b -> a = b.
Proof.
  induction s as [|c s IH]; simpl; intros H; [exact H |].
  inversion H. auto.
Qed.

Lemma dec_digits (n : nat) : string_forall is_digit (dec n) = true.
Proof.
  unfold dec.
  assert (H : forall d, string_forall is_digit (NilEmpty.string_of_uint d) = true).
  { induction d; simpl; auto. }
  destruct (Nat.to_uint n) eqn:E; simpl; try reflexivity;
    rewrite ?H; reflexivity.
Qed.

Lemma pad2_digits (n : nat) : string_forall is_digit (pad2 n) = true.
Proof.
  unfold pad2. destruct (n <? 10)%nat; [| apply dec_digits].
  change ("0" ++ dec n) with (String "0" (dec n)). simpl. apply dec_digits.
Qed.

Lemma random_choice_lowercase (g : Rng) :
  is_lower (fst (random_choice ascii_lowercase g)) = true.
Proof.
  unfold random_choice. cbn [fst].
  change (String.length ascii_lowercase) with 26%nat.
  pose proof (Nat.mod_upper_bound (rng_draws g (rng_pos g)) 26) as H.
  destruct (rng_draws g (rng_pos g) mod 26)%nat as [|i]; [reflexivity |].
  do 25 (destruct i as [|i]; [reflexivity |]).
  exfalso. lia.
Qed.

Lemma random_string_spec (n : nat) (g : Rng) :
  String.length (fst (get_random_string n g)) = n
  /\ string_forall is_lower (fst (get_random_string n g)) = true
  /\ rng_pos (snd (get_random_string n g)) = (rng_pos g + n)%nat
  /\ rng_draws (snd (get_random_string n g)) = rng_draws g.
Proof.
  revert g. induction n as [|n IH]; intros g; cbn [get_random_string].
  - cbn. repeat split. lia.
  - pose proof (random_choice_lowercase g) as Hc.
    destruct (random_choice ascii_lowercase g) as [c g1] eqn:E1.
    assert (Hp : rng_pos g1 = S (rng_pos g) /\ rng_draws g1 = rng_draws g).
    { unfold random_choice in E1. inversion E1; subst. split; reflexivity. }
    destruct (IH g1) as [Hl [Hf [Hpos Hd]]].
    destruct (get_random_string n g1) as [rest g2]. cbn [fst snd] in *.
    destruct Hp as [Hp1 Hp2].
    repeat split.
    + simpl. rewrite Hl. reflexivity.
    + simpl. rewrite Hc, Hf. reflexivity.
    + rewrite Hpos, Hp1. lia.
    + rewrite Hd, Hp2. reflexivity.
Qed.

(** [get_random_string n] returns [n] characters, each a lowercase letter,
    and uses up [n] draws of the random source, in order. *)
Theorem random_string_shape (n : nat) (g : Rng) :
  String.length (fst (get_random_string n g)) = n
  /\ string_forall is_lower (fst (get_random_string n g)) = true
  /\ rng_pos (snd (get_random_string n g)) = (rng_pos g + n)%nat
  /\ rng_draws (snd (get_random_string n g)) = rng_draws g.
Proof. apply random_string_spec. Qed.

(** A reservation name is [reservation-], the year, the month, the day, a
    dash, the hour, the minute, the second and the minute once more, a dash,
    and eight lowercase letters; it holds lowercase letters, digits and
    dashes only. *)
Theorem reservation_name_shape (today : datetime) (g : Rng) :
  let name := fst (get_reservation_name today g) in
  let suffix := fst (get_random_string 8 g) in
  name = "reservation-" ++ dec (year today) ++ pad2 (month today)
         ++ pad2 (day today) ++ "-" ++ pad2 (hour today) ++ pad2 (minute today)
         ++ pad2 (second today) ++ pad2 (minute today) ++ "-" ++ suffix
  /\ String.length suffix = 8%nat
  /\ string_forall is_lower suffix = true
  /\ string_forall name_char name = true.
Proof.
  cbv zeta.
  destruct (random_string_spec 8 g) as [Hl [Hf _]].
  assert (E : fst (get_reservation_name today g)
              = "reservation-" ++ dec (year today) ++ pad2 (month today)
                ++ pad2 (day today) ++ "-" ++ pad2 (hour today)
                ++ pad2 (minute today) ++ pad2 (second today)
                ++ pad2 (minute today) ++ "-" ++ fst (get_random_string 8 g)).
  { unfold get_reservation_name.
    destruct (get_random_string 8 g) as [suffix g']. cbn [fst].
    cbn [strftime Ascii.eqb Bool.eqb]. cbn [String.append].
    rewrite string_append_nil_r.
    repeat (rewrite string_append_assoc; cbn [String.append]).
    reflexivity. }
  split; [exact E |]. split; [exact Hl |]. split; [exact Hf |].
  rewrite E.
  assert (Hd : forall s, string_forall is_digit s = true ->
                         string_forall name_char s = true).
  { intros s. apply string_forall_weaken. intros c Hc. unfold name_char.
    rewrite Hc, orb_true_r. reflexivity. }
  assert (Hw : string_forall name_char (fst (get_random_string 8 g)) = true).
  { revert Hf. apply string_forall_weaken. intros c Hc. unfold name_char.
    rewrite Hc. reflexivity. }
  rewrite !string_forall_append.
  pose proof (fun n => Hd _ (dec_digits n)) as Hdec.
  pose proof (fun n => Hd _ (pad2_digits n)) as Hpad.
  rewrite Hdec, !Hpad, Hw. reflexivity.
Qed.

(** Two names generated at the same time are equal exactly when their random
    suffixes are. *)
Theorem reservation_names_differ_by_suffix (today : datetime) (g1 g2 : Rng) :
  fst (get_reservation_name today g1) = fst (get_reservation_name today g2)
  <-> fst (get_random_string 8 g1) = fst (get_random_string 8 g2).
Proof.
  unfold get_reservation_name.
  destruct (get_random_string 8 g1) as [s1 g1'].
  destruct (get_random_string 8 g2) as [s2 g2']. cbn [fst].
  split.
  - intros H. apply append_inv_head in H. apply append_inv_head in H. exact H.
  - intros H. rewrite H. reflexivity.
Qed.

(** ** An assignment failure without a message *)

(** On the in-memory service: the create of the assignment raises an
    exception that has no [message]; the caller gets an [AttributeError],
    the commitment is rolled back and the reservation stays. *)
Lemma purchase_assignment_fails_without_message_witness :
  let s := Fake.failing [("create_assignment", Fake.refresh_error)] Fake.empty in
  exists w',
    purchase_http Fake.runtime "NAME" (Fake.purchase_request (PyInt 50))
      Fake.client (PyStr "p1") (PyStr "EU") 50 (Fake.world s)
    = (inl (mkExn "AttributeError" None
                  "'RefreshError' object has no attribute 'message'"), w')
    /\ map Reservation.name (Fake.reservations (remote w'))
       = ["projects/p1/locations/EU/reservations/NAME"]
    /\ Fake.commitments (remote w') = []
    /\ count_calls is_delete_reservation (journal w') = 0%nat.
Proof.
  cbv zeta.
  destruct (@purchase_assignment_fails_without_message Fake.runtime Fake.state
              Fake.client "NAME" (Fake.purchase_request (PyInt 50)) (PyStr "p1")
              (PyStr "EU") 50
              (Fake.world (Fake.failing [("create_assignment", Fake.refresh_error)]
                             Fake.empty))
              _ _ Fake.refresh_error (inr tt) _ _ _ _
              eq_refl eq_refl eq_refl eq_refl eq_refl eq_refl)
    as [w' [Hrun [Hr Hc]]].
  exists w'. split; [exact Hrun |]. rewrite Hr.
  split; [reflexivity |]. split; [reflexivity |]. rewrite Hc. reflexivity.
Defined.

(** ** Slots out of range *)

(** A purchase of slots that do not fit a signed 64-bit field stops when the
    commitment message is built: a [ValueError] is raised after the first
    line of output, the service is not called, and the answer is a 500. *)
Theorem purchase_slots_out_of_range (rt : PyRuntime) (R : Type)
    (client : ReservationServiceClient R) (default_name : string)
    (request : Request) (project_id location : pyvalue) (slots : Z)
    (w : World R) :
  in_int64 slots = false ->
  exists e w',
    purchase_http rt default_name request client project_id location slots w
    = (inl e, w') /\
    exn_type e = "ValueError" /\
    status (handle_exception e) = 500 /\
    journal w' = journal w /\
    remote w' = remote w /\
    stdout w' = append (stdout w)
                  ("Purchasing commitment for " ++ string_of_Z slots
                   ++ " FLEX slots in project " ++ py_str rt project_id
                   ++ " in " ++ py_str rt location).
Proof.
  intros Hs. eexists. eexists.
  rewrite purchase_http_out_of_range by exact Hs.
  repeat split.
Qed.

Lemma purchase_slots_out_of_range_witness :
  exists e w',
    purchase_http Fake.runtime "NAME" (Fake.purchase_request (PyInt (- 2 ^ 63 - 1)))
      Fake.client (PyStr "p1") (PyStr "EU") (- 2 ^ 63 - 1)
      (Fake.world Fake.populated) = (inl e, w')
    /\ exn_type e = "ValueError"
    /\ journal w' = []
    /\ remote w' = Fake.populated.
Proof.
  destruct (@purchase_slots_out_of_range Fake.runtime Fake.state Fake.client
              "NAME" (Fake.purchase_request (PyInt (- 2 ^ 63 - 1))) (PyStr "p1")
              (PyStr "EU") (- 2 ^ 63 - 1) (Fake.world Fake.populated) eq_refl)
    as [e [w' [Hrun [He [_ [Hj [Hr _]]]]]]].
  exists e, w'. repeat split; assumption.
Defined.
